(** * generatePDFs.py: Notion rows merged into a Google Docs template

    A shallow embedding of [src/generatePDFs.py] and the properties of it
    that the specification states.

    Python values are the values [json.loads] produces ([pyval]); a Python
    [str] is a list of Unicode code points ([pystr]); a call that can raise
    returns a [result]; the collaborators (Notion, Google Drive and Docs, the
    local file system) are threaded through a state-and-error monad whose
    state records every external call. *)

From Stdlib Require Import ZArith NArith List String Ascii Bool Lia.
From Stdlib Require Import DecimalString Floats.
From stdpp Require Import gmap.
Import ListNotations.

Set Warnings "-register-all".
Local Open Scope N_scope.

(** ** Python strings *)

(** A [str] is a sequence of code points; [len], slicing and the regular
    expressions of the source all count code points. *)
Definition pystr : Type := list N.

(** The literal [s] of the source, whose characters are all ASCII. *)
Definition u (s : string) : pystr :=
  map (fun a : ascii => N_of_ascii a) (list_ascii_of_string s).

Definition str_eqb (a b : pystr) : bool := bool_decide (a = b).

(** [sep.join(parts)] for parts that are already known to be [str]. *)
Fixpoint join_strs (sep : pystr) (parts : list pystr) : pystr :=
  match parts with
  | [] => []
  | [p] => p
  | p :: rest => p ++ sep ++ join_strs sep rest
  end.

(** [str.isspace] of one code point, which is also what [str.strip()] and
    the pattern [\s] test on a [str]: the white space of the Unicode
    character database. *)
Definition is_space (c : N) : bool :=
  ((9 <=? c) && (c <=? 13)) || ((28 <=? c) && (c <=? 32))
  || (c =? 133) || (c =? 160) || (c =? 5760)
  || ((8192 <=? c) && (c <=? 8202))
  || (c =? 8232) || (c =? 8233) || (c =? 8239) || (c =? 8287) || (c =? 12288).

Fixpoint lstrip (s : pystr) : pystr :=
  match s with
  | c :: s' => if is_space c then lstrip s' else s
  | [] => []
  end.

(** [s.strip()] *)
Definition strip (s : pystr) : pystr := rev (lstrip (rev (lstrip s))).

Definition is_ascii_alnum (c : N) : bool :=
  ((48 <=? c) && (c <=? 57)) || ((65 <=? c) && (c <=? 90))
  || ((97 <=? c) && (c <=? 122)).

(** [str(n)] for an [int]. *)
Definition str_of_Z (z : Z) : pystr := u (NilZero.string_of_int (Z.to_int z)).

(** ** Python values and exceptions *)

Inductive pyval : Type :=
| PNone
| PBool (b : bool)
| PInt (z : Z)
| PFloat (f : float)
| PStr (s : pystr)
| PList (l : list pyval)
| PDict (d : list (pystr * pyval)).

(** A [dict] keeps insertion order; a key occurs once. *)
Definition pydict : Type := list (pystr * pyval).

Inductive exn : Type :=
| KeyError
| TypeError
| AttributeError
| HttpError
| OSError
| SystemExit (msg : pystr).

(** What a call does: it returns, it raises, or (for the one unbounded loop
    of the program) the model ran out of [fuel] before it finished. *)
Inductive result (A : Type) : Type :=
| Ok (a : A)
| Raise (e : exn)
| OutOfFuel.
Arguments Ok {A} a.
Arguments Raise {A} e.
Arguments OutOfFuel {A}.

Definition rbind {A B} (r : result A) (k : A -> result B) : result B :=
  match r with
  | Ok a => k a
  | Raise e => Raise e
  | OutOfFuel => OutOfFuel
  end.

Declare Scope result_scope.
Delimit Scope result_scope with result.
Notation "'let*' x ':=' r 'in' k" := (rbind r (fun x => k))
  (at level 10, x name, r at level 100, k at level 200) : result_scope.
Local Open Scope result_scope.

Fixpoint rmap {A B} (f : A -> result B) (l : list A) : result (list B) :=
  match l with
  | [] => Ok []
  | a :: l' => let* b := f a in let* bs := rmap f l' in Ok (b :: bs)
  end.

(** Truth value of a Python object, as [if v], [not v] and [v or w] use it. *)
Definition truthy (v : pyval) : bool :=
  match v with
  | PNone => false
  | PBool b => b
  | PInt z => negb (z =? 0)%Z
  | PFloat f => negb (PrimFloat.eqb f 0%float)
  | PStr s => negb (bool_decide (s = []))
  | PList l => negb (bool_decide (l = []))
  | PDict d => match d with [] => false | _ => true end
  end.

(** [v or w] *)
Definition py_or (v w : pyval) : pyval := if truthy v then v else w.

Fixpoint dict_get (d : pydict) (k : pystr) : option pyval :=
  match d with
  | [] => None
  | (k', v) :: d' => if str_eqb k' k then Some v else dict_get d' k
  end.

(** [d[k] = v]: the value of an existing key is replaced where it stands,
    a new key goes last. *)
Fixpoint dict_set (d : pydict) (k : pystr) (v : pyval) : pydict :=
  match d with
  | [] => [(k, v)]
  | (k', v') :: d' =>
      if str_eqb k' k then (k, v) :: d' else (k', v') :: dict_set d' k v
  end.

(** [obj.get(key, default)]: only a [dict] has [get]; the key must be
    hashable; the keys of the dicts of this program are all [str], so a key
    of another hashable type is never found. *)
Definition py_get (obj key default : pyval) : result pyval :=
  match obj with
  | PDict d =>
      match key with
      | PStr k => Ok (match dict_get d k with Some v => v | None => default end)
      | PList _ | PDict _ => Raise TypeError
      | _ => Ok default
      end
  | _ => Raise AttributeError
  end.

(** [obj[key]] for a [str] key. *)
Definition py_getitem (obj : pyval) (k : pystr) : result pyval :=
  match obj with
  | PDict d => match dict_get d k with Some v => Ok v | None => Raise KeyError end
  | _ => Raise TypeError
  end.

(** The items a [for] loop or a generator draws from [v]. *)
Definition py_iter (v : pyval) : result (list pyval) :=
  match v with
  | PList l => Ok l
  | PStr s => Ok (map (fun c => PStr [c]) s)
  | PDict d => Ok (map (fun kv => PStr (fst kv)) d)
  | _ => Raise TypeError
  end.

Definition as_str (v : pyval) : result pystr :=
  match v with
  | PStr s => Ok s
  | _ => Raise TypeError
  end.

(** [sep.join(items)]: every item must be a [str]. *)
Definition py_join (sep : pystr) (items : list pyval) : result pyval :=
  let* parts := rmap as_str items in Ok (PStr (join_strs sep parts)).

(** ** The interpreter's tables

    Three built-ins of the interpreter are tables of the Unicode database or
    of the float printer, which the program only looks up.  They are taken
    as given; the ASCII part of each, which is fixed, is written out. *)
Section Interpreter.

(** [str.isalnum] of a code point above 127. *)
Variable unicode_alnum : N -> bool.
(** [repr(s)] of a [str]: quoted, with its escapes. *)
Variable repr_str : pystr -> pystr.
(** [repr(f)] of a [float], which is also its [str(f)]. *)
Variable repr_float : float -> pystr.

(** [repr(v)] *)
Fixpoint py_repr (v : pyval) : pystr :=
  match v with
  | PNone => u "None"
  | PBool true => u "True"
  | PBool false => u "False"
  | PInt z => str_of_Z z
  | PFloat f => repr_float f
  | PStr s => repr_str s
  | PList l => u "[" ++ join_strs (u ", ") (map py_repr l) ++ u "]"
  | PDict d =>
      u "{"
      ++ join_strs (u ", ")
           (map (fun kv => let '(k, x) := kv in repr_str k ++ u ": " ++ py_repr x) d)
      ++ u "}"
  end.

(** [str(v)] *)
Definition py_str (v : pyval) : pystr :=
  match v with
  | PStr s => s
  | _ => py_repr v
  end.

(** ** Utilities of the program *)

(** [die(msg)] *)
Definition die {A} (msg : pystr) : result A :=
  Raise (SystemExit (u "ERROR: " ++ msg)).

(** [rich_plain_text(rich)] *)
Definition rich_plain_text (rich : pyval) : result pyval :=
  let* items := py_iter (py_or rich (PList [])) in
  let* texts := rmap (fun x => py_get x (PStr (u "plain_text")) (PStr [])) items in
  py_join [] texts.

(** [t == lit] for a literal [str]. *)
Definition is_lit (t : pyval) (lit : string) : bool :=
  match t with
  | PStr s => str_eqb s (u lit)
  | _ => false
  end.

(** [notion_prop_to_str(prop)] *)
Definition notion_prop_to_str (prop : pyval) : result pyval :=
  let* t := py_get prop (PStr (u "type")) PNone in
  if negb (truthy t) then Ok (PStr [])
  else
    let* v := py_get prop t PNone in
    if is_lit t "title" then rich_plain_text v
    else if is_lit t "rich_text" then rich_plain_text v
    else if is_lit t "number" then
      Ok (PStr (match v with PNone => [] | _ => py_str v end))
    else if is_lit t "checkbox" then
      Ok (PStr (if truthy v then u "TRUE" else u "FALSE"))
    else if is_lit t "select" then
      if truthy v then py_getitem v (u "name") else Ok (PStr [])
    else if is_lit t "multi_select" then
      let* items := py_iter (py_or v (PList [])) in
      let* names := rmap (fun x => py_getitem x (u "name")) items in
      py_join (u ", ") names
    else if is_lit t "date" then
      if truthy v then py_get v (PStr (u "start")) (PStr []) else Ok (PStr [])
    else if is_lit t "email" || is_lit t "phone_number" || is_lit t "url" then
      Ok (py_or v (PStr []))
    else if is_lit t "people" then
      let* items := py_iter (py_or v (PList [])) in
      let* names :=
        rmap (fun p => let* n := py_get p (PStr (u "name")) PNone in
                       Ok (py_or n (PStr []))) items in
      py_join (u ", ") names
    else if is_lit t "relation" then
      let* items := py_iter (py_or v (PList [])) in
      let* ids := rmap (fun r => py_get r (PStr (u "id")) (PStr [])) items in
      py_join (u ", ") ids
    else if is_lit t "formula" then
      let* ft := py_get (py_or v (PDict [])) (PStr (u "type")) PNone in
      if negb (truthy ft) then Ok (PStr [])
      else
        let* x := py_get (py_or v (PDict [])) ft PNone in
        Ok (PStr (py_str (py_or x (PStr []))))
    else if is_lit t "status" then
      if truthy v then py_getitem v (u "name") else Ok (PStr [])
    else
      Ok (PStr (match v with PNone => [] | _ => py_str v end)).

(** The pattern [\w] on a [str]: alphanumeric or the underscore. *)
Definition is_word (c : N) : bool :=
  if c <? 128 then is_ascii_alnum c || (c =? 95) else unicode_alnum c.

(** [re.sub("[...]+", repl, s)] for a character class [cls]: every maximal
    run of characters of the class is replaced by one [repl]; [in_run] says
    that the character before was of the class. *)
Fixpoint re_sub_runs (cls : N -> bool) (repl : pystr) (in_run : bool)
    (s : pystr) : pystr :=
  match s with
  | [] => []
  | c :: s' =>
      if cls c then
        (if in_run then [] else repl) ++ re_sub_runs cls repl true s'
      else c :: re_sub_runs cls repl false s'
  end.

Definition re_sub (cls : N -> bool) (repl s : pystr) : pystr :=
  re_sub_runs cls repl false s.

(** The class [[^\w\- ]]: not a word character, not a hyphen, not a space. *)
Definition not_allowed (c : N) : bool :=
  negb (is_word c || (c =? 45) || (c =? 32)).

(** [slugify(s)] *)
Definition slugify (s : pystr) : pystr :=
  let s := strip s in
  let s := re_sub not_allowed [] s in
  let s := re_sub is_space (u "_") s in
  match s with
  | [] => u "document"
  | _ => firstn 120 s
  end.

(** ** Configuration read from the environment *)

(** [str.lower] of a [str] that has a code point above 127. *)
Variable unicode_lower : pystr -> pystr.

Definition ascii_lower (c : N) : N :=
  if (65 <=? c) && (c <=? 90) then c + 32 else c.

(** [s.lower()] *)
Definition py_lower (s : pystr) : pystr :=
  if forallb (fun c => c <? 128) s then map ascii_lower s else unicode_lower s.

(** [os.getenv(name, default)] *)
Definition getenv (env : pystr -> option pystr) (name default : string) : pystr :=
  match env (u name) with
  | Some v => v
  | None => u default
  end.

(** The slashes [s] starts with. *)
Fixpoint leading_slashes (s : pystr) : nat :=
  match s with
  | c :: s' => if c =? 47 then S (leading_slashes s') else O
  | [] => O
  end.

(** The parts of [s] between its slashes; [part] is the part being read,
    latest character first. *)
Fixpoint split_slashes (s : pystr) (part : pystr) : list pystr :=
  match s with
  | [] => [rev part]
  | c :: s' =>
      if c =? 47 then rev part :: split_slashes s' [] else split_slashes s' (c :: part)
  end.

(** [Path(s)], as its text, on a POSIX host: the root is kept (two leading
    slashes stay two, any other number is one), empty parts and parts that
    are a dot are dropped, and the path without root and parts is the dot. *)
Definition Path (s : pystr) : pystr :=
  let root :=
    match leading_slashes s with
    | O => []
    | 2%nat => u "//"
    | _ => u "/"
    end in
  let parts :=
    List.filter (fun part => negb (str_eqb part [] || str_eqb part (u ".")))
      (split_slashes s []) in
  match root, parts with
  | [], [] => u "."
  | _, _ => root ++ join_strs (u "/") parts
  end.

Record config : Type := {
  NOTION_TOKEN : pystr;
  NOTION_DATABASE_ID : pystr;
  GOOGLE_TEMPLATE_DOC_ID : pystr;
  GOOGLE_TOKEN_JSON : pystr;
  NOTION_VERSION : pystr;
  OUTPUT_DIR : pystr;
  DELETE_INTERMEDIATE_DOCS : bool
}.

(** The module-level assignments of the program. *)
Definition config_of_env (env : pystr -> option pystr) : config := {|
  NOTION_TOKEN := strip (getenv env "NOTION_TOKEN" "");
  NOTION_DATABASE_ID := strip (getenv env "NOTION_DATABASE_ID" "");
  GOOGLE_TEMPLATE_DOC_ID := strip (getenv env "GOOGLE_TEMPLATE_DOC_ID" "");
  GOOGLE_TOKEN_JSON := strip (getenv env "GOOGLE_TOKEN_JSON" "");
  NOTION_VERSION := strip (getenv env "NOTION_VERSION" "2022-06-28");
  OUTPUT_DIR := Path (getenv env "OUTPUT_DIR" "out_pdfs");
  DELETE_INTERMEDIATE_DOCS :=
    let v := py_lower (getenv env "DELETE_INTERMEDIATE_DOCS" "true") in
    bool_decide (v ∈ [u "1"; u "true"; u "yes"])
|}.

(** ** The collaborators *)

(** A file of the output directory: the directory and the file's name in it
    ([OUTPUT_DIR / name]). *)
Definition path : Type := pystr * pystr.

(** Every call the program makes to the outside, in order. *)
Inductive event : Type :=
| GoogleLogin (token_json : pystr)
| NotionPost (database_id : pystr) (headers : list (pystr * pystr)) (payload : pydict)
| DriveCopy (file_id : pystr) (name : pystr)
| DocsBatchUpdate (document_id : pyval) (requests : list (pystr * pyval))
| DriveExport (file_id : pyval)
| WriteBytes (out_path : path) (data : list Byte.byte)
| DriveDelete (file_id : pyval)
| PrintFound (n : nat) (out_dir : pystr)
| PrintSaved (i n : nat) (name : pystr)
| PrintDone.

(** The response of the Notion API to one request. *)
Record response : Type := {
  status_code : Z;
  text : pystr;
  json : result pyval
}.

(** What the collaborators answer; each answer may depend on everything the
    program did before ([list event], latest call first). *)
Record services : Type := {
  google_login : pystr -> result unit;
  notion_post : list event -> pystr -> pydict -> result response;
  drive_copy : list event -> pystr -> pystr -> result pyval;
  docs_batch_update : list event -> pyval -> list (pystr * pyval) -> result unit;
  drive_export : list event -> pyval -> result (list Byte.byte);
  drive_delete : list event -> pyval -> result unit;
  write_file : list event -> path -> list Byte.byte -> result unit
}.

(** The state of the outside: the calls made so far (latest first) and the
    files of the output directory. *)
Record world : Type := {
  calls : list event;
  files : gmap path (list Byte.byte)
}.

Definition M (A : Type) : Type := world -> result A * world.

Definition ret {A} (a : A) : M A := fun w => (Ok a, w).

Definition bind {A B} (m : M A) (k : A -> M B) : M B :=
  fun w =>
    match m w with
    | (Ok a, w') => k a w'
    | (Raise e, w') => (Raise e, w')
    | (OutOfFuel, w') => (OutOfFuel, w')
    end.

Definition lift {A} (r : result A) : M A := fun w => (r, w).

(** Record a call. *)
Definition emit (e : event) : M unit :=
  fun w => (Ok tt, {| calls := e :: calls w; files := files w |}).

(** Make a call and take the collaborator's answer to it. *)
Definition call {A} (e : event) (answer : list event -> result A) : M A :=
  fun w => (answer (calls w), {| calls := e :: calls w; files := files w |}).

Declare Scope pipeline_scope.
Delimit Scope pipeline_scope with pipeline.
Notation "x <- m ;; k" := (bind m (fun x => k))
  (at level 100, m at next level, right associativity) : pipeline_scope.
Notation "m ;; k" := (bind m (fun _ => k))
  (at level 100, right associativity) : pipeline_scope.

(** ** The pipeline *)

Variable svc : services.
Variable cfg : config.

(** [out_path.write_bytes(data)]: the file is created, or replaced when it
    is there, unless the operating system refuses to open it for writing (a
    name that is too long, a directory that is not writable), which raises
    and leaves the files as they were. *)
Definition write_bytes (p : path) (data : list Byte.byte) : M unit :=
  fun w =>
    match write_file svc (calls w) p data with
    | Ok _ =>
        (Ok tt, {| calls := WriteBytes p data :: calls w;
                   files := <[p := data]> (files w) |})
    | refusal =>
        (refusal, {| calls := WriteBytes p data :: calls w; files := files w |})
    end.

(** The loop of [fetch_all_notion_rows]: one iteration per unit of [fuel]. *)
Fixpoint fetch_loop (fuel : nat) (database_id : pystr) (headers : list (pystr * pystr))
    (cursor : pyval) (results : list pyval) : M (list pyval) :=
  match fuel with
  | O => lift OutOfFuel
  | S fuel' =>
      let payload :=
        let payload := [(u "page_size", PInt 100)] in
        if truthy cursor then dict_set payload (u "start_cursor") cursor
        else payload in
      (r <- call (NotionPost database_id headers payload)
                 (fun h => notion_post svc h database_id payload) ;;
       if (400 <=? status_code r)%Z then
         lift (die (u "Notion API error " ++ str_of_Z (status_code r)
                    ++ u ": " ++ text r))
       else
         data <- lift (json r) ;;
         page <- lift (py_get data (PStr (u "results")) (PList [])) ;;
         rows <- lift (py_iter page) ;;
         let results := results ++ rows in
         more <- lift (py_get data (PStr (u "has_more")) PNone) ;;
         if negb (truthy more) then ret results
         else
           cursor <- lift (py_get data (PStr (u "next_cursor")) PNone) ;;
           fetch_loop fuel' database_id headers cursor results)%pipeline
  end.

(** [fetch_all_notion_rows(database_id)] *)
Definition fetch_all_notion_rows (fuel : nat) (database_id : pystr) : M (list pyval) :=
  if negb (truthy (PStr (NOTION_TOKEN cfg))) then
    lift (die (u "NOTION_TOKEN is missing (set GitHub secret NOTION_TOKEN)."))
  else if negb (truthy (PStr database_id)) then
    lift (die (u "NOTION_DATABASE_ID is missing (set GitHub secret NOTION_DATABASE_ID)."))
  else
    let headers :=
      [(u "Authorization", u "Bearer " ++ NOTION_TOKEN cfg);
       (u "Notion-Version", NOTION_VERSION cfg);
       (u "Content-Type", u "application/json")] in
    fetch_loop fuel database_id headers PNone [].

(** The headers of every request to Notion. *)
Definition notion_headers : list (pystr * pystr) :=
  [(u "Authorization", u "Bearer " ++ NOTION_TOKEN cfg);
   (u "Notion-Version", NOTION_VERSION cfg);
   (u "Content-Type", u "application/json")].

(** The placeholder of a column: its name between double braces. *)
Definition placeholder (col_name : pystr) : pystr := u "{{" ++ col_name ++ u "}}".

(** The loop of [row_to_placeholder_map] over [props.items()]. *)
Fixpoint fill_placeholders (items : pydict) (repl : pydict) : result pydict :=
  match items with
  | [] => Ok repl
  | (col_name, prop_obj) :: rest =>
      let* value := notion_prop_to_str prop_obj in
      fill_placeholders rest (dict_set repl (placeholder col_name) value)
  end.

(** [row_to_placeholder_map(page)] *)
Definition row_to_placeholder_map (page : pyval) : result pydict :=
  let* props := py_get page (PStr (u "properties")) (PDict []) in
  match props with
  | PDict items => fill_placeholders items []
  | _ => Raise AttributeError
  end.

(** [google_clients_from_token_json()]: parsing the token, refreshing the
    credentials and building the two clients are the library's. *)
Definition google_clients_from_token_json : M unit :=
  if negb (truthy (PStr (GOOGLE_TOKEN_JSON cfg))) then
    lift (die (u "GOOGLE_TOKEN_JSON missing (set GitHub secret GOOGLE_TOKEN_JSON)."))
  else
    call (GoogleLogin (GOOGLE_TOKEN_JSON cfg))
         (fun _ => google_login svc (GOOGLE_TOKEN_JSON cfg)).

(** [copy_template_doc(drive, template_doc_id, new_title)] *)
Definition copy_template_doc (template_doc_id new_title : pystr) : M pyval :=
  if negb (truthy (PStr template_doc_id)) then
    lift (die (u "GOOGLE_TEMPLATE_DOC_ID missing (set GitHub secret GOOGLE_TEMPLATE_DOC_ID)."))
  else
    (copied <- call (DriveCopy template_doc_id new_title)
                    (fun h => drive_copy svc h template_doc_id new_title) ;;
     lift (py_getitem copied (u "id")))%pipeline.

(** [replace_placeholders(docs, document_id, repl)]: one request per item
    of [repl], all in one [batchUpdate]. *)
Definition replace_placeholders (document_id : pyval) (repl : pydict) : M unit :=
  call (DocsBatchUpdate document_id repl)
       (fun h => docs_batch_update svc h document_id repl).

(** [export_pdf(drive, document_id, out_path)] *)
Definition export_pdf (document_id : pyval) (out_path : path) : M unit :=
  (data <- call (DriveExport document_id) (fun h => drive_export svc h document_id) ;;
   write_bytes out_path data)%pipeline.

(** [v.strip()]: a method of [str] only. *)
Definition py_strip (v : pyval) : result pystr :=
  match v with
  | PStr s => Ok (strip s)
  | _ => Raise AttributeError
  end.

Definition preferred_cols : list pystr :=
  [u "Invoice #"; u "Invoice"; u "Name"; u "Title"; u "ID"].

(** The loop of [main] over [preferred_cols]: [Some] name when it breaks,
    [None] when it runs to its end. *)
Fixpoint pick_base_name (repl : pydict) (cols : list pystr) : result (option pystr) :=
  match cols with
  | [] => Ok None
  | col :: rest =>
      let ph := placeholder col in
      let* s := py_strip (match dict_get repl ph with Some v => v | None => PStr [] end) in
      if truthy (PStr s) then
        let* v := py_getitem (PDict repl) ph in
        let* b := py_strip v in
        Ok (Some b)
      else pick_base_name repl rest
  end.

(** The base name of row [i]: what the loop chose, or [row_<i>]. *)
Definition base_name_of (repl : pydict) (i : nat) : result pystr :=
  let* chosen := pick_base_name repl preferred_cols in
  match chosen with
  | Some b => if truthy (PStr b) then Ok b else Ok (u "row_" ++ str_of_Z (Z.of_nat i))
  | None => Ok (u "row_" ++ str_of_Z (Z.of_nat i))
  end.

(** The title of the copy and the path of the PDF, both from the slug. *)
Definition title_of (safe_name : pystr) : pystr := u "PDF_" ++ safe_name.
Definition pdf_path_of (safe_name : pystr) : path :=
  (OUTPUT_DIR cfg, safe_name ++ u ".pdf").

(** One iteration of the loop of [main] over the rows. *)
Definition process_row (i n : nat) (page : pyval) : M unit :=
  (repl <- lift (row_to_placeholder_map page) ;;
   base_name <- lift (base_name_of repl i) ;;
   let safe_name := slugify base_name in
   let new_title := title_of safe_name in
   new_doc_id <- copy_template_doc (GOOGLE_TEMPLATE_DOC_ID cfg) new_title ;;
   replace_placeholders new_doc_id repl ;;
   let pdf_path := pdf_path_of safe_name in
   export_pdf new_doc_id pdf_path ;;
   (if DELETE_INTERMEDIATE_DOCS cfg then
      call (DriveDelete new_doc_id) (fun h => drive_delete svc h new_doc_id)
    else ret tt) ;;
   emit (PrintSaved i n (snd pdf_path)))%pipeline.

(** [for i, page in enumerate(rows, start=i)] *)
Fixpoint process_rows (i n : nat) (rows : list pyval) : M unit :=
  match rows with
  | [] => ret tt
  | page :: rest => (process_row i n page ;; process_rows (S i) n rest)%pipeline
  end.

(** [main()] *)
Definition main (fuel : nat) : M unit :=
  (google_clients_from_token_json ;;
   rows <- fetch_all_notion_rows fuel (NOTION_DATABASE_ID cfg) ;;
   if negb (truthy (PList rows)) then
     lift (die (u "No rows found in Notion database."))
   else
     emit (PrintFound (length rows) (OUTPUT_DIR cfg)) ;;
     process_rows 1 (length rows) rows ;;
     emit PrintDone)%pipeline.

(** * Vocabulary of the properties *)

(** ** Well-formed properties: the payload shapes of the kinds of section
    4.1, as the Notion API sends them; a payload may always be null. *)

Definition str_or_absent (d : pydict) (k : string) : bool :=
  match dict_get d (u k) with
  | None | Some (PStr _) => true
  | _ => false
  end.

(** An inline text run: its [plain_text], when it has one, is a [str]. *)
Definition wf_text_run (x : pyval) : bool :=
  match x with
  | PDict d => str_or_absent d "plain_text"
  | _ => false
  end.

(** An option of a select, multi-select or status: it has a name. *)
Definition wf_option (x : pyval) : bool :=
  match x with
  | PDict d => match dict_get d (u "name") with Some (PStr _) => true | _ => false end
  | _ => false
  end.

(** A person: the name may be missing or null. *)
Definition wf_person (x : pyval) : bool :=
  match x with
  | PDict d =>
      match dict_get d (u "name") with
      | None | Some PNone | Some (PStr _) => true
      | _ => false
      end
  | _ => false
  end.

Definition wf_relation (x : pyval) : bool :=
  match x with
  | PDict d => str_or_absent d "id"
  | _ => false
  end.

Definition wf_list (wf : pyval -> bool) (v : pyval) : bool :=
  match v with
  | PNone => true
  | PList l => forallb wf l
  | _ => false
  end.

Definition wf_payload (t : pystr) (v : pyval) : bool :=
  if str_eqb t (u "title") then wf_list wf_text_run v
  else if str_eqb t (u "rich_text") then wf_list wf_text_run v
  else if str_eqb t (u "select") then
    match v with PNone => true | _ => wf_option v end
  else if str_eqb t (u "multi_select") then wf_list wf_option v
  else if str_eqb t (u "date") then
    match v with PNone => true | PDict d => str_or_absent d "start" | _ => false end
  else if str_eqb t (u "email") || str_eqb t (u "phone_number")
          || str_eqb t (u "url") then
    match v with PNone | PStr _ => true | _ => false end
  else if str_eqb t (u "people") then wf_list wf_person v
  else if str_eqb t (u "relation") then wf_list wf_relation v
  else if str_eqb t (u "formula") then
    match v with
    | PNone => true
    | PDict fd =>
        match dict_get fd (u "type") with
        | None | Some PNone | Some (PStr _) => true
        | _ => false
        end
    | _ => false
    end
  else if str_eqb t (u "status") then
    match v with PNone => true | _ => wf_option v end
  else true.

(** A property object: a [dict] whose [type], when it has one, is a [str]
    that names the key of a payload of that kind. *)
Definition wf_property (prop : pyval) : bool :=
  match prop with
  | PDict d =>
      match dict_get d (u "type") with
      | None | Some PNone => true
      | Some (PStr t) =>
          wf_payload t (match dict_get d t with Some v => v | None => PNone end)
      | _ => false
      end
  | _ => false
  end.

(** A property of kind [t] with payload [v], as the API sends it. *)
Definition property (t : string) (v : pyval) : pyval :=
  PDict [(u "id", PStr (u "abc")); (u "type", PStr (u t)); (u t, v)].

(** The payload of a formula whose computed value [x] has kind [ft]. *)
Definition computed (ft : string) (x : pyval) : pyval :=
  PDict [(u "type", PStr (u ft)); (u ft, x)].

(** The allow-set: word characters, the hyphen and the space. *)
Definition allowed (c : N) : bool := negb (not_allowed c).

(** What a slug is made of: word characters and hyphens. *)
Definition slug_char (c : N) : bool := is_word c || (c =? 45).

(** The slug before truncation and default: [s] trimmed, the characters
    outside the allow-set dropped, white space collapsed. *)
Definition cleaned (s : pystr) : pystr :=
  re_sub is_space (u "_") (List.filter allowed (strip s)).

(** [b] does not start, [a] does not end, with a character of [cls]. *)
Definition starts_outside (cls : N -> bool) (b : pystr) : Prop :=
  match b with [] => True | c :: _ => cls c = false end.
Definition ends_outside (cls : N -> bool) (a : pystr) : Prop :=
  starts_outside cls (rev a).

(** The entries of the placeholder map of a row whose columns [props]
    normalize to [vals]. *)
Definition entries (props : pydict) (vals : list pyval) : pydict :=
  map (fun kv => (placeholder (fst (fst kv)), snd kv)) (combine props vals).

(** The value of the column's placeholder is missing, or blank once trimmed. *)
Definition blank_or_absent (repl : pydict) (col : pystr) : Prop :=
  match dict_get repl (placeholder col) with
  | None => True
  | Some (PStr s) => strip s = []
  | Some _ => False
  end.

(** The request for the page at [cursor]: the page size, and the cursor
    when there is one. *)
Definition request_payload (cursor : option pystr) : pydict :=
  match cursor with
  | None => [(u "page_size", PInt 100)]
  | Some c => [(u "page_size", PInt 100); (u "start_cursor", PStr c)]
  end.

Definition cursor_value (cursor : option pystr) : pyval :=
  match cursor with
  | None => PNone
  | Some c => PStr c
  end.

(** The response [r] is a page of [rows]; [next] is the cursor of the page
    after it, when the service says there is one. *)
Definition page_of (answer : result response) (rows : list pyval)
    (next : option pystr) : Prop :=
  exists (r : response) (d : pydict),
       answer = Ok r
       /\ (status_code r < 400)%Z
       /\ json r = Ok (PDict d)
       /\ dict_get d (u "results") = Some (PList rows)
       /\ match next with
          | Some c =>
              dict_get d (u "has_more") = Some (PBool true)
              /\ dict_get d (u "next_cursor") = Some (PStr c) /\ c <> []
          | None => dict_get d (u "has_more") = Some (PBool false)
          end.

(** After the calls [h], and asked page by page from [cursor] on, the
    service of database [db] sends the pages of [script], each with the
    cursor of the next one, and then the page [last]. *)
Inductive serves (db : pystr) :
    list event -> option pystr -> list (list pyval * pystr) -> list pyval -> Prop :=
| serves_last h cursor rows :
    page_of (notion_post svc h db (request_payload cursor)) rows None ->
    serves db h cursor [] rows
| serves_next h cursor rows c script last :
    page_of (notion_post svc h db (request_payload cursor)) rows (Some c) ->
    serves db (NotionPost db notion_headers (request_payload cursor) :: h)
           (Some c) script last ->
    serves db h cursor ((rows, c) :: script) last.

(** The requests that fetch [script] and the page after it, first to last. *)
Fixpoint requests (cursor : option pystr) (script : list (list pyval * pystr))
    : list pydict :=
  match script with
  | [] => [request_payload cursor]
  | (_, c) :: script' => request_payload cursor :: requests (Some c) script'
  end.

(** The calls that touch a document or a file. *)
Definition is_document_call (e : event) : bool :=
  match e with
  | DriveCopy _ _ | DocsBatchUpdate _ _ | DriveExport _ | WriteBytes _ _
  | DriveDelete _ => true
  | _ => false
  end.

(** A computation that leaves the files alone and makes no call that
    touches a document. *)
Definition quiet {A} (m : M A) : Prop :=
  forall w,
    files (snd (m w)) = files w
    /\ exists evs, calls (snd (m w)) = evs ++ calls w
                   /\ Forall (fun e => is_document_call e = false) evs.

(** The slug the run derives for the row [page] at index [i]. *)
Definition slug_of_row (i : nat) (page : pyval) : result pystr :=
  let* repl := row_to_placeholder_map page in
  let* base_name := base_name_of repl i in
  Ok (slugify base_name).

(** The calls of one processed row whose slug is [safe_name], latest first:
    the copy under the title, the substitution, the export, the file, the
    deletion when cleanup is on, the progress line. *)
Definition row_calls (safe_name : pystr) (repl : pydict) (doc : pyval)
    (data : list Byte.byte) (i n : nat) : list event :=
  [PrintSaved i n (safe_name ++ u ".pdf")]
  ++ (if DELETE_INTERMEDIATE_DOCS cfg then [DriveDelete doc] else [])
  ++ [WriteBytes (pdf_path_of safe_name) data;
      DriveExport doc;
      DocsBatchUpdate doc repl;
      DriveCopy (GOOGLE_TEMPLATE_DOC_ID cfg) (title_of safe_name)].



(** The environment [env] with the variable [name] set to [v], or unset. *)
Definition setenv (env : pystr -> option pystr) (name : string) (v : option pystr)
    : pystr -> option pystr :=
  fun k => if str_eqb k (u name) then v else env k.

(** ** Shapes of list items, for the properties of the list kinds *)

(** [x] is an inline text run whose text is [s]; a run without
    [plain_text] has the empty text. *)
Definition text_run_of (x : pyval) (s : pystr) : Prop :=
  match x with
  | PDict d =>
      match dict_get d (u "plain_text") with
      | Some (PStr s') => s = s'
      | None => s = []
      | Some _ => False
      end
  | _ => False
  end.

(** [x] is an option whose name is [s]. *)
Definition option_named (x : pyval) (s : pystr) : Prop :=
  match x with
  | PDict d => dict_get d (u "name") = Some (PStr s)
  | _ => False
  end.

(** [x] is a person shown as [s]: the name, or nothing when the name is
    missing or null. *)
Definition person_shown (x : pyval) (s : pystr) : Prop :=
  match x with
  | PDict d =>
      match dict_get d (u "name") with
      | Some (PStr s') => s = s'
      | Some PNone | None => s = []
      | Some _ => False
      end
  | _ => False
  end.

(** The kinds the normalizer has a rule for. *)
Definition supported_kinds : list pystr :=
  [u "title"; u "rich_text"; u "number"; u "checkbox"; u "select";
   u "multi_select"; u "date"; u "email"; u "phone_number"; u "url";
   u "people"; u "relation"; u "formula"; u "status"].

(** A character that slug derivation keeps as it is: in the allow-set and
    not white space. *)
Definition safe_char (c : N) : bool := negb (is_space c) && allowed c.

(** ** Services that do not end the fetch *)

(** After the calls [h], and asked page by page from [cursor] on, the
    service of database [db] sends the pages of [script], each marked as
    having more and carrying the cursor of the next; what it does after them
    is left open. *)
Inductive serves_pages (db : pystr) :
    list event -> option pystr -> list (list pyval * pystr) -> Prop :=
| serves_pages_nil h cursor : serves_pages db h cursor []
| serves_pages_cons h cursor rows c script :
    page_of (notion_post svc h db (request_payload cursor)) rows (Some c) ->
    serves_pages db (NotionPost db notion_headers (request_payload cursor) :: h)
                 (Some c) script ->
    serves_pages db h cursor ((rows, c) :: script).

(** The cursor the fetcher holds after the pages of [script]. *)
Fixpoint cursor_after (cursor : option pystr) (script : list (list pyval * pystr))
    : option pystr :=
  match script with
  | [] => cursor
  | (_, c) :: script' => cursor_after (Some c) script'
  end.

(** The requests that fetch the pages of [script], first to last. *)
Fixpoint requests_for (cursor : option pystr) (script : list (list pyval * pystr))
    : list pydict :=
  match script with
  | [] => []
  | (_, c) :: script' => request_payload cursor :: requests_for (Some c) script'
  end.

(** The world after the requests for the pages of [script]. *)
Definition after_pages (db : pystr) (script : list (list pyval * pystr)) (w : world)
    : world :=
  {| calls := rev (map (NotionPost db notion_headers) (requests_for None script))
              ++ calls w;
     files := files w |}.

(** ** Whole runs *)

(** Every call a computation makes satisfies [P]. *)
Definition calls_only (P : event -> Prop) {A} (m : M A) : Prop :=
  forall w, exists evs, calls (snd (m w)) = evs ++ calls w /\ Forall P evs.

Definition is_delete (e : event) : bool :=
  match e with DriveDelete _ => true | _ => false end.

(** What processing a row has made: its slug, its placeholder map, the
    copy and the bytes of the export. *)
Definition rendered : Type := pystr * pydict * pyval * list Byte.byte.

(** The calls of the rows [rs], processed at the indices from [i] on,
    latest first. *)
Fixpoint run_calls (i n : nat) (rs : list rendered) : list event :=
  match rs with
  | [] => []
  | (s, repl, doc, data) :: rs' => run_calls (S i) n rs' ++ row_calls s repl doc data i n
  end.

(** The rows [rows], at the indices from [i] on, have the slugs of [rs]. *)
Fixpoint rows_rendered (i : nat) (rows : list pyval) (rs : list rendered) : Prop :=
  match rows, rs with
  | [], [] => True
  | page :: rows', (s, _, _, _) :: rs' =>
      slug_of_row i page = Ok s /\ rows_rendered (S i) rows' rs'
  | _, _ => False
  end.

(** The files after the exports of [rs] are written, in order, over [fs]. *)
Definition run_files (rs : list rendered) (fs : gmap path (list Byte.byte))
    : gmap path (list Byte.byte) :=
  fold_left (fun fs r => <[pdf_path_of (fst (fst (fst r))) := snd r]> fs) rs fs.

(** ** Sample tables, services and rows, for the closed instances *)

(** Tables of an interpreter; the instances below use ASCII text only, on
    which the tables are never consulted, or hold for every table. *)
Definition no_alnum : N -> bool := fun _ => false.
Definition quoted (s : pystr) : pystr := u "'" ++ s ++ u "'".
Definition float_text (f : float) : pystr := u "0.0".

Definition sample_cfg : config := {|
  NOTION_TOKEN := u "secret";
  NOTION_DATABASE_ID := u "db1";
  GOOGLE_TEMPLATE_DOC_ID := u "template";
  GOOGLE_TOKEN_JSON := u "{}";
  NOTION_VERSION := u "2022-06-28";
  OUTPUT_DIR := u "out_pdfs";
  DELETE_INTERMEDIATE_DOCS := true
|}.

(** A title whose text is [s]. *)
Definition title (s : string) : pyval :=
  property "title" (PList [PDict [(u "type", PStr (u "text")); (u "plain_text", PStr (u s))]]).

(** A row with a name and a total. *)
Definition sample_row (name : string) (total : Z) : pyval :=
  PDict [(u "object", PStr (u "page"));
         (u "properties",
          PDict [(u "Name", title name); (u "Total", property "number" (PInt total))])].

(** A successful response carrying one page. *)
Definition page_response (rows : list pyval) (more : bool) (next : pyval) : response := {|
  status_code := 200;
  text := [];
  json := Ok (PDict [(u "object", PStr (u "list")); (u "results", PList rows);
                     (u "next_cursor", next); (u "has_more", PBool more)])
|}.

Definition is_notion_post (e : event) : bool :=
  match e with NotionPost _ _ _ => true | _ => false end.

(** Collaborators that always succeed; Notion sends the pages of [pages]
    one request after the other, the last of them again when asked further. *)
Definition scripted (pages : list response) : services := {|
  google_login := fun _ => Ok tt;
  notion_post := fun h _ _ =>
    Ok (nth (length (List.filter is_notion_post h)) pages
          (List.last pages (page_response [] false PNone)));
  drive_copy := fun _ _ name => Ok (PDict [(u "id", PStr (u "doc-" ++ name))]);
  docs_batch_update := fun _ _ _ => Ok tt;
  drive_export := fun h _ => Ok (repeat Byte.x25 (length h));
  drive_delete := fun _ _ => Ok tt;
  write_file := fun _ _ _ => Ok tt
|}.

Definition three_pages : services :=
  scripted [page_response [sample_row "A" 1] true (PStr (u "c1"));
            page_response [sample_row "B" 2; sample_row "C" 3] true (PStr (u "c2"));
            page_response [sample_row "D" 4] false PNone].

Definition no_rows : services := scripted [page_response [] false PNone].

Definition fresh : world := {| calls := []; files := ∅ |}.

(** A response that reports an error. *)
Definition error_response (code : Z) (body : string) : response := {|
  status_code := code;
  text := u body;
  json := Ok (PDict [(u "object", PStr (u "error"))])
|}.

(** Notion sends one page, then fails. *)
Definition failing_service : services :=
  scripted [page_response [sample_row "A" 1] true (PStr (u "c1"));
            error_response 502 "Bad Gateway"].

(** Notion marks every page as having more. *)
Definition endless_service : services :=
  scripted [page_response [sample_row "A" 1] true (PStr (u "c1"))].

(** Notion marks the second page as having more, without a cursor. *)
Definition cursorless_service : services :=
  scripted [page_response [sample_row "A" 1] true (PStr (u "c1"));
            page_response [sample_row "B" 2] true PNone;
            page_response [sample_row "C" 3] false PNone].

(** The sample configuration with cleanup off, and without a template. *)
Definition keep_cfg : config := {|
  NOTION_TOKEN := u "secret";
  NOTION_DATABASE_ID := u "db1";
  GOOGLE_TEMPLATE_DOC_ID := u "template";
  GOOGLE_TOKEN_JSON := u "{}";
  NOTION_VERSION := u "2022-06-28";
  OUTPUT_DIR := u "out_pdfs";
  DELETE_INTERMEDIATE_DOCS := false
|}.

Definition no_template_cfg : config := {|
  NOTION_TOKEN := u "secret";
  NOTION_DATABASE_ID := u "db1";
  GOOGLE_TEMPLATE_DOC_ID := [];
  GOOGLE_TOKEN_JSON := u "{}";
  NOTION_VERSION := u "2022-06-28";
  OUTPUT_DIR := u "out_pdfs";
  DELETE_INTERMEDIATE_DOCS := true
|}.

(** A row whose second column is a select with a nameless option. *)
Definition malformed_row : pyval :=
  PDict [(u "properties",
          PDict [(u "Name", title "Bad");
                 (u "Stage", property "select" (PDict [(u "id", PStr (u "opt1"))]));
                 (u "Total", property "number" (PInt 7))])].

(** * Properties of the normalizer *)

Lemma truthy_str (s : pystr) : s <> [] -> truthy (PStr s) = true.
Proof.
  intros Hs. simpl. rewrite bool_decide_eq_false_2; auto.
Qed.

Lemma rmap_strs {A} (f : A -> result pyval) (l : list A) :
  (forall x, In x l -> exists s, f x = Ok (PStr s)) ->
  exists ss, rmap f l = Ok (map PStr ss).
Proof.
  induction l as [|a l IH]; intros Hf.
  - exists []. reflexivity.
  - destruct (Hf a) as [s Hs]; [left; reflexivity|].
    destruct IH as [ss Hss]; [intros x Hx; apply Hf; right; exact Hx|].
    exists (s :: ss). simpl. rewrite Hs. simpl. rewrite Hss. reflexivity.
Qed.

Lemma py_join_strs (sep : pystr) (ss : list pystr) :
  py_join sep (map PStr ss) = Ok (PStr (join_strs sep ss)).
Proof.
  unfold py_join.
  assert (H : rmap as_str (map PStr ss) = Ok ss).
  { induction ss as [|s ss IH]; [reflexivity|]. simpl. rewrite IH. reflexivity. }
  rewrite H. reflexivity.
Qed.

(** Joining what a total, string-valued [f] makes of the items of a list
    payload (or of a null one) gives a string. *)
Lemma joined_list_is_str (wf : pyval -> bool) (f : pyval -> result pyval)
    (sep : pystr) (v : pyval) :
  (forall x, wf x = true -> exists s, f x = Ok (PStr s)) ->
  wf_list wf v = true ->
  exists s,
    (let* items := py_iter (py_or v (PList [])) in
     let* parts := rmap f items in py_join sep parts) = Ok (PStr s).
Proof.
  intros Hf Hv.
  assert (Hl : exists l, py_iter (py_or v (PList [])) = Ok l /\ forallb wf l = true).
  { destruct v; try discriminate Hv.
    - exists []. split; reflexivity.
    - exists l. split; [|exact Hv].
      unfold py_or. destruct (truthy (PList l)) eqn:Ht; [reflexivity|].
      simpl in Ht. apply negb_false_iff, bool_decide_eq_true_1 in Ht.
      subst l. reflexivity. }
  destruct Hl as (l & -> & Hall).
  destruct (rmap_strs f l) as [ss Hss].
  { intros x Hx. apply Hf. rewrite forallb_forall in Hall. apply Hall, Hx. }
  cbv beta iota delta [rbind]. rewrite Hss, py_join_strs. eauto.
Qed.

Lemma rich_plain_text_is_str (v : pyval) :
  wf_list wf_text_run v = true -> exists s, rich_plain_text v = Ok (PStr s).
Proof.
  intros Hv. unfold rich_plain_text.
  apply (joined_list_is_str wf_text_run); [|exact Hv].
  intros x Hx. destruct x; try discriminate Hx.
  unfold wf_text_run, str_or_absent in Hx. cbv beta iota delta [py_get].
  destruct (dict_get d (u "plain_text")) as [[]|]; try discriminate Hx; eauto.
Qed.

Lemma option_name_is_str (x : pyval) :
  wf_option x = true -> exists s, py_getitem x (u "name") = Ok (PStr s).
Proof.
  intros Hx. destruct x; try discriminate Hx.
  unfold wf_option in Hx. cbv beta iota delta [py_getitem].
  destruct (dict_get d (u "name")) as [[]|]; try discriminate Hx; eauto.
Qed.

Lemma selected_name_is_str (v : pyval) :
  match v with PNone => true | _ => wf_option v end = true ->
  exists s, (if truthy v then py_getitem v (u "name") else Ok (PStr [])) = Ok (PStr s).
Proof.
  intros Hv. destruct (truthy v) eqn:Ht; [|eauto].
  apply option_name_is_str. destruct v; try exact Hv. discriminate Ht.
Qed.

Lemma raw_or_empty_is_str (v : pyval) :
  match v with PNone | PStr _ => true | _ => false end = true ->
  exists s, py_or v (PStr []) = PStr s.
Proof.
  intros Hv. destruct v; try discriminate Hv; unfold py_or.
  - simpl. eauto.
  - destruct (truthy (PStr s)); eauto.
Qed.

Ltac on_kind lit :=
  match goal with
  | |- context [bool_decide (?t = u lit)] =>
      let E := fresh "Hkind" in
      destruct (decide (t = u lit)) as [E | E];
      [ rewrite ?(bool_decide_eq_true_2 _ E) in *
      | rewrite ?(bool_decide_eq_false_2 _ E) in * ];
      cbn [orb negb] in *
  end.

(** C2, as the code has it: on a well-formed property the normalizer
    returns, and what it returns is a string. *)
Theorem normalize_total_on_well_formed (prop : pyval) :
  wf_property prop = true ->
  exists s, notion_prop_to_str prop = Ok (PStr s).
Proof.
  intros Hwf. destruct prop as [| | | | |?|d]; try discriminate Hwf.
  unfold wf_property in Hwf. unfold notion_prop_to_str.
  cbv beta iota delta [py_get rbind].
  destruct (dict_get d (u "type")) as [[| | | |t| |]|];
    try discriminate Hwf; try (exists []; reflexivity).
  destruct (decide (t = [])) as [-> | Hne]; [exists []; reflexivity|].
  rewrite (truthy_str t Hne). cbv beta iota delta [negb].
  set (v := match dict_get d t with Some v => v | None => PNone end) in *.
  unfold wf_payload in Hwf. unfold is_lit, str_eqb in *.
  on_kind "title"%string; [apply rich_plain_text_is_str, Hwf|].
  on_kind "rich_text"%string; [apply rich_plain_text_is_str, Hwf|].
  on_kind "number"%string; [eauto|].
  on_kind "checkbox"%string; [eauto|].
  on_kind "select"%string; [apply selected_name_is_str, Hwf|].
  on_kind "multi_select"%string.
  { apply (joined_list_is_str wf_option); [apply option_name_is_str|exact Hwf]. }
  on_kind "date"%string.
  { destruct v; try discriminate Hwf; [exists []; reflexivity|].
    destruct (truthy (PDict d0)); [|eauto].
    unfold str_or_absent in Hwf.
    destruct (dict_get d0 (u "start")) as [[]|]; try discriminate Hwf; eauto. }
  on_kind "email"%string.
  { destruct (raw_or_empty_is_str v Hwf) as [s ->]. eauto. }
  on_kind "phone_number"%string.
  { destruct (raw_or_empty_is_str v Hwf) as [s ->]. eauto. }
  on_kind "url"%string.
  { destruct (raw_or_empty_is_str v Hwf) as [s ->]. eauto. }
  on_kind "people"%string.
  { apply (joined_list_is_str wf_person); [|exact Hwf].
    intros x Hx. destruct x; try discriminate Hx. unfold wf_person in Hx.
    cbv beta iota delta [py_get rbind].
    destruct (dict_get d0 (u "name")) as [[]|]; try discriminate Hx;
      match goal with
      | |- context [py_or ?n _] =>
          destruct (raw_or_empty_is_str n eq_refl) as [? ->]
      end; eauto. }
  on_kind "relation"%string.
  { apply (joined_list_is_str wf_relation); [|exact Hwf].
    intros x Hx. destruct x; try discriminate Hx.
    unfold wf_relation, str_or_absent in Hx. cbv beta iota delta [py_get].
    destruct (dict_get d0 (u "id")) as [[]|]; try discriminate Hx; eauto. }
  on_kind "formula"%string.
  { destruct v; try discriminate Hwf; [exists []; reflexivity|].
    unfold py_or at 1 2. 
    destruct (truthy (PDict d0)) eqn:Hd0; [|exists []; reflexivity].
    destruct (dict_get d0 (u "type")) as [[| | | |ft| |]|];
      try discriminate Hwf; try (exists []; reflexivity).
    destruct (truthy (PStr ft)); cbv beta iota delta [negb]; eauto. }
  on_kind "status"%string; [apply selected_name_is_str, Hwf|].
  eauto.
Qed.

(** C3, as the code has it: a null or missing payload normalizes to the
    empty string for every kind but checkbox, and to "FALSE" for checkbox;
    the kind is any non-empty name, supported or not. *)
Theorem null_payload_is_empty (d : pydict) (t : pystr) :
  dict_get d (u "type") = Some (PStr t) ->
  t <> [] ->
  dict_get d t = None \/ dict_get d t = Some PNone ->
  notion_prop_to_str (PDict d)
  = Ok (PStr (if str_eqb t (u "checkbox") then u "FALSE" else [])).
Proof.
  intros Ht Hne Hv.
  assert (Hnone : match dict_get d t with Some v => v | None => PNone end = PNone)
    by (destruct Hv as [-> | ->]; reflexivity).
  unfold notion_prop_to_str.
  cbv beta iota delta [py_get rbind]. rewrite Ht.
  rewrite (truthy_str t Hne). cbv beta iota delta [negb].
  rewrite Hnone. clear Ht Hv Hnone.
  unfold is_lit, str_eqb.
  destruct (decide (t = u "checkbox")) as [-> | Hcb]; [reflexivity|].
  rewrite !(bool_decide_eq_false_2 (t = u "checkbox") Hcb).
  repeat case_bool_decide; reflexivity.
Qed.

(** C1, as the code has it: a formula is normalized by [str] of its raw
    computed value, whatever the kind of that value, when that value is
    truthy; a computed value that is missing, null or otherwise falsy
    (false, zero, empty) gives the empty string. *)
Theorem formula_is_str_of_computed (d fd : pydict) (ft : pystr) :
  dict_get d (u "type") = Some (PStr (u "formula")) ->
  dict_get d (u "formula") = Some (PDict fd) ->
  dict_get fd (u "type") = Some (PStr ft) ->
  ft <> [] ->
  notion_prop_to_str (PDict d)
  = Ok (PStr (match dict_get fd ft with
              | Some x => if truthy x then py_str x else []
              | None => []
              end)).
Proof.
  intros Ht Hv Hft Hne.
  assert (Hfd : truthy (PDict fd) = true) by (destruct fd; [discriminate Hft|reflexivity]).
  assert (Hrun : notion_prop_to_str (PDict d) =
                 Ok (PStr (py_str (py_or (match dict_get fd ft with
                                          | Some x => x
                                          | None => PNone
                                          end) (PStr []))))).
  { unfold notion_prop_to_str.
    cbv beta iota delta [py_get rbind]. rewrite Ht.
    change (negb (truthy (PStr (u "formula")))) with false.
    cbv beta iota. rewrite Hv.
    change (is_lit (PStr (u "formula")) "title") with false.
    change (is_lit (PStr (u "formula")) "rich_text") with false.
    change (is_lit (PStr (u "formula")) "number") with false.
    change (is_lit (PStr (u "formula")) "checkbox") with false.
    change (is_lit (PStr (u "formula")) "select") with false.
    change (is_lit (PStr (u "formula")) "multi_select") with false.
    change (is_lit (PStr (u "formula")) "date") with false.
    change (is_lit (PStr (u "formula")) "email") with false.
    change (is_lit (PStr (u "formula")) "phone_number") with false.
    change (is_lit (PStr (u "formula")) "url") with false.
    change (is_lit (PStr (u "formula")) "people") with false.
    change (is_lit (PStr (u "formula")) "relation") with false.
    change (is_lit (PStr (u "formula")) "formula") with true.
    cbv beta iota delta [orb]. unfold py_or at 1 2. rewrite Hfd, Hft.
    rewrite (truthy_str ft Hne). reflexivity. }
  rewrite Hrun.
  destruct (dict_get fd ft) as [x|]; [|reflexivity].
  unfold py_or. destruct (truthy x); reflexivity.
Qed.

(** * Properties of the slug *)

Lemma re_sub_runs_drop (cls : N -> bool) (b : bool) (s : pystr) :
  re_sub_runs cls [] b s = List.filter (fun c => negb (cls c)) s.
Proof.
  revert b. induction s as [|c s IH]; intros b; [reflexivity|].
  simpl. destruct (cls c); simpl.
  - destruct b; apply IH.
  - f_equal. apply IH.
Qed.

Lemma re_sub_runs_outside (cls : N -> bool) (r s : pystr) (b : bool) :
  starts_outside cls s -> re_sub_runs cls r b s = re_sub_runs cls r false s.
Proof.
  destruct s as [|c s]; [reflexivity|]. simpl. intros ->. reflexivity.
Qed.

(** Substitution goes through a concatenation when the left part does not
    end inside a run. *)
Lemma re_sub_runs_app (cls : N -> bool) (r a s : pystr) (b : bool) :
  ends_outside cls a -> a <> [] ->
  re_sub_runs cls r b (a ++ s)
  = re_sub_runs cls r b a ++ re_sub_runs cls r false s.
Proof.
  revert b. induction a as [|c a IH]; intros b Hend Hne; [congruence|].
  destruct a as [|c' a].
  - unfold ends_outside in Hend. simpl in Hend. simpl. rewrite Hend.
    reflexivity.
  - assert (Hend' : ends_outside cls (c' :: a)).
    { unfold ends_outside in *. simpl in *.
      destruct (rev a ++ [c']) eqn:E.
      - destruct (rev a); discriminate E.
      - exact Hend. }
    change ((c :: c' :: a) ++ s) with (c :: ((c' :: a) ++ s)).
    cbn [re_sub_runs]. destruct (cls c).
    + rewrite IH by (auto; discriminate). rewrite <- !app_assoc. reflexivity.
    + rewrite IH by (auto; discriminate). reflexivity.
Qed.

(** A run of the class between two parts that are outside of it becomes
    one replacement. *)
Lemma re_sub_run (cls : N -> bool) (r a run s : pystr) :
  ends_outside cls a -> starts_outside cls s ->
  Forall (fun c => cls c = true) run -> run <> [] ->
  re_sub cls r (a ++ run ++ s) = re_sub cls r a ++ r ++ re_sub cls r s.
Proof.
  intros Ha Hs Hrun Hne. unfold re_sub.
  assert (Htail : forall b, re_sub_runs cls r b (run ++ s)
                            = (if b then [] else r) ++ re_sub_runs cls r false s).
  { intros b. clear Ha. revert b.
    induction Hrun as [|c run Hc Hrun IH]; intros b; [congruence|].
    cbn [app re_sub_runs]. rewrite Hc. destruct run as [|c' run].
    - cbn [app]. rewrite (re_sub_runs_outside cls r s true Hs). reflexivity.
    - rewrite IH by discriminate. reflexivity. }
  destruct a as [|c a].
  - cbn [app re_sub_runs]. apply (Htail false).
  - rewrite re_sub_runs_app by (auto; discriminate).
    rewrite (Htail false). reflexivity.
Qed.

Lemma slugify_cleaned (s : pystr) :
  slugify s = match cleaned s with [] => u "document" | c => firstn 120 c end.
Proof.
  unfold slugify, cleaned.
  assert (Hkept : re_sub not_allowed [] (strip s) = List.filter allowed (strip s))
    by apply re_sub_runs_drop.
  rewrite Hkept.
  destruct (re_sub is_space (u "_") (List.filter allowed (strip s))); reflexivity.
Qed.

Lemma cleaned_slug_chars (s : pystr) : forallb slug_char (cleaned s) = true.
Proof.
  unfold cleaned, re_sub.
  assert (Hkept : Forall (fun c => allowed c = true) (List.filter allowed (strip s))).
  { apply List.Forall_forall. intros c Hc. apply filter_In in Hc.
    destruct Hc as [_ Hc]. exact Hc. }
  enough (H : forall b, forallb slug_char
                          (re_sub_runs is_space (u "_") b
                             (List.filter allowed (strip s))) = true)
    by apply H.
  induction Hkept as [|c k Hc Hkept IH]; intros b; [reflexivity|].
  cbn [re_sub_runs]. destruct (is_space c) eqn:Hsp.
  - rewrite forallb_app, IH, andb_true_r. destruct b; reflexivity.
  - cbn [forallb]. rewrite IH, andb_true_r.
    unfold allowed, not_allowed in Hc. rewrite negb_involutive in Hc.
    unfold slug_char.
    destruct (is_word c); [reflexivity|]. destruct (c =? 45) eqn:E; [reflexivity|].
    simpl in Hc. apply N.eqb_eq in Hc. subst c. discriminate Hsp.
Qed.

(** C4, as the code has it: the slug of [s] is what is left of [s] after
    trimming, dropping the characters outside the allow-set and collapsing
    each run of white space to one underscore, cut to 120 characters, or the
    default when nothing is left; it is made of word characters and hyphens,
    is never empty nor longer than 120, and is 120 long exactly when 120
    characters or more are left. *)
Theorem slugify_spec (s : pystr) :
  slugify s = (match cleaned s with [] => u "document" | c => firstn 120 c end)
  /\ forallb slug_char (slugify s) = true
  /\ (0 < length (slugify s) <= 120)%nat
  /\ ((120 <= length (cleaned s))%nat <-> length (slugify s) = 120%nat)
  /\ (forall a run b : pystr,
        List.filter allowed (strip s) = a ++ run ++ b ->
        ends_outside is_space a -> starts_outside is_space b ->
        Forall (fun c => is_space c = true) run -> run <> [] ->
        cleaned s = re_sub is_space (u "_") a ++ u "_" ++ re_sub is_space (u "_") b).
Proof.
  pose proof (slugify_cleaned s) as Heq.
  pose proof (cleaned_slug_chars s) as Hchars.
  assert (Hruns : forall a run b : pystr,
             List.filter allowed (strip s) = a ++ run ++ b ->
             ends_outside is_space a -> starts_outside is_space b ->
             Forall (fun c => is_space c = true) run -> run <> [] ->
             cleaned s
             = re_sub is_space (u "_") a ++ u "_" ++ re_sub is_space (u "_") b).
  { intros a run b Hk Ha Hb Hrun Hne. unfold cleaned. rewrite Hk.
    apply re_sub_run; assumption. }
  split; [exact Heq|]. rewrite Heq.
  destruct (cleaned s) as [|c k].
  - split; [reflexivity|]. split; [simpl; lia|]. split; [|exact Hruns].
    simpl. split; intros H; [lia|discriminate H].
  - split.
    { rewrite forallb_forall in *. intros x Hx. apply Hchars.
      rewrite <- (firstn_skipn 120 (c :: k)). apply in_or_app. left. exact Hx. }
    split; [rewrite length_firstn; cbn [length]; lia|].
    split; [rewrite length_firstn; cbn [length]; lia|exact Hruns].
Qed.

(** * Properties of the placeholder map and of the base name *)

Lemma placeholder_inj (a b : pystr) : placeholder a = placeholder b -> a = b.
Proof.
  unfold placeholder. intros H.
  apply app_inv_head in H. apply app_inv_tail in H. exact H.
Qed.

Lemma str_eqb_eq (a b : pystr) : str_eqb a b = true <-> a = b.
Proof. unfold str_eqb. apply bool_decide_eq_true. Qed.

Lemma dict_set_fresh (d : pydict) (k : pystr) (v : pyval) :
  ~ In k (map fst d) -> dict_set d k v = d ++ [(k, v)].
Proof.
  induction d as [|[k' v'] d IH]; intros Hk; [reflexivity|].
  simpl. destruct (str_eqb k' k) eqn:E.
  - apply str_eqb_eq in E. subst k'. exfalso. apply Hk. left. reflexivity.
  - rewrite IH; [reflexivity|]. intros Hin. apply Hk. right. exact Hin.
Qed.

Lemma fill_placeholders_entries (props : pydict) (vals : list pyval) :
  Forall2 (fun kv v => notion_prop_to_str (snd kv) = Ok v) props vals ->
  forall repl : pydict,
    List.NoDup (map fst repl ++ map placeholder (map fst props)) ->
    fill_placeholders props repl = Ok (repl ++ entries props vals).
Proof.
  induction 1 as [|[col prop] v props vals Hv Hrest IH]; intros repl Hnd.
  - unfold entries. simpl. rewrite app_nil_r. reflexivity.
  - cbn [fill_placeholders]. cbn [snd] in Hv. rewrite Hv.
    cbv beta iota delta [rbind].
    cbn [map fst] in Hnd.
    rewrite dict_set_fresh.
    + rewrite IH.
      * unfold entries. cbn [combine map fst snd].
        rewrite <- app_assoc. reflexivity.
      * rewrite map_app. cbn [map fst]. rewrite <- app_assoc. exact Hnd.
    + intros Hin. apply List.NoDup_remove_2 in Hnd. apply Hnd.
      apply in_or_app. left. exact Hin.
Qed.

(** C8: the placeholder map of a row has one entry per column, in the
    order of the columns: the column's name between double braces, taken as
    it is, and the normalized value of the column. *)
Theorem placeholder_map_entries (d props : pydict) (vals : list pyval) :
  dict_get d (u "properties") = Some (PDict props) ->
  List.NoDup (map fst props) ->
  Forall2 (fun kv v => notion_prop_to_str (snd kv) = Ok v) props vals ->
  row_to_placeholder_map (PDict d) = Ok (entries props vals)
  /\ map fst (entries props vals) = map placeholder (map fst props)
  /\ List.NoDup (map fst (entries props vals)).
Proof.
  intros Hprops Hnd Hvals.
  assert (Hkeys : map fst (entries props vals) = map placeholder (map fst props)).
  { unfold entries. clear Hnd Hprops.
    induction Hvals as [|kv v props vals _ _ IH]; [reflexivity|].
    cbn [combine map fst]. rewrite IH. reflexivity. }
  assert (Hnd' : List.NoDup (map placeholder (map fst props))).
  { clear Hvals Hkeys Hprops. induction Hnd as [|k ks Hk Hnd IH]; [apply List.NoDup_nil|].
    cbn [map]. apply List.NoDup_cons; [|exact IH].
    intros Hin. apply in_map_iff in Hin. destruct Hin as (k' & Hk' & Hin).
    apply placeholder_inj in Hk'. subst k'. exact (Hk Hin). }
  split; [|split; [exact Hkeys|rewrite Hkeys; exact Hnd']].
  unfold row_to_placeholder_map. cbv beta iota delta [py_get rbind].
  rewrite Hprops.
  rewrite (fill_placeholders_entries props vals Hvals []); [reflexivity|exact Hnd'].
Qed.

Lemma pick_base_name_skips (repl : pydict) (before rest : list pystr) :
  Forall (blank_or_absent repl) before ->
  pick_base_name repl (before ++ rest) = pick_base_name repl rest.
Proof.
  induction 1 as [|col before Hcol _ IH]; [reflexivity|].
  cbn [app pick_base_name]. unfold blank_or_absent in Hcol.
  destruct (dict_get repl (placeholder col)) as [[]|]; try contradiction.
  - cbn [py_strip rbind]. rewrite Hcol. exact IH.
  - exact IH.
Qed.

(** C5: the base name of row [i] is the trimmed value of the first column
    of the preference list whose value is not blank; every column before it
    is missing or blank.  When there is no such column it is [row_<i>]. *)
Theorem base_name_is_first_non_blank (repl : pydict) (i : nat)
    (before rest : list pystr) :
  preferred_cols = before ++ rest ->
  Forall (blank_or_absent repl) before ->
  match rest with
  | col :: _ =>
      forall s, dict_get repl (placeholder col) = Some (PStr s) ->
                strip s <> [] ->
                base_name_of repl i = Ok (strip s)
  | [] => base_name_of repl i = Ok (u "row_" ++ str_of_Z (Z.of_nat i))
  end.
Proof.
  intros Hcols Hblank. unfold base_name_of.
  rewrite Hcols, (pick_base_name_skips repl before rest Hblank).
  destruct rest as [|col rest]; [reflexivity|].
  intros s Hs Hne. cbn [pick_base_name]. rewrite Hs.
  cbn [py_strip rbind]. rewrite (truthy_str _ Hne).
  cbn [py_getitem]. rewrite Hs. cbn [rbind py_strip].
  rewrite (truthy_str _ Hne). reflexivity.
Qed.

(** * Properties of the row fetcher *)

Lemma fetch_loop_pages (db : pystr) (script : list (list pyval * pystr)) :
  forall (fuel : nat) (cursor : option pystr) (last acc : list pyval) (w : world),
    cursor <> Some [] ->
    serves db (calls w) cursor script last ->
    (length script < fuel)%nat ->
    fetch_loop fuel db notion_headers (cursor_value cursor) acc w
    = (Ok (acc ++ concat (map fst script) ++ last),
       {| calls := rev (map (NotionPost db notion_headers) (requests cursor script))
                   ++ calls w;
          files := files w |}).
Proof.
  induction script as [|[rows c] script IH];
    intros fuel cursor last acc w Hcur Hserves Hfuel;
    (destruct fuel as [|fuel]; [simpl in Hfuel; lia|]);
    inversion Hserves as [h cu rs Hpage | h cu rs c' sc la Hpage Hnext]; subst;
    destruct Hpage as (r & d & Hr & Hstatus & Hjson & Hrows & Hmore);
    cbn [fetch_loop];
    (assert (Hpayload :
       (if truthy (cursor_value cursor)
        then dict_set [(u "page_size", PInt 100)] (u "start_cursor") (cursor_value cursor)
        else [(u "page_size", PInt 100)]) = request_payload cursor)
      by (destruct cursor as [k|]; [|reflexivity];
          cbn [cursor_value];
          rewrite truthy_str by (intros Hk; apply Hcur; rewrite Hk; reflexivity);
          reflexivity));
    rewrite Hpayload; unfold bind at 1, call at 1; rewrite Hr;
    (destruct (400 <=? status_code r)%Z eqn:E; [apply Z.leb_le in E; lia|]);
    unfold bind, lift, ret; rewrite Hjson;
    cbv beta iota delta [py_get]; rewrite Hrows; cbn [py_iter].
  - rewrite Hmore. cbn [truthy negb concat map app rev requests].
    reflexivity.
  - destruct Hmore as (Hmore & Hnextc & Hne). rewrite Hmore, Hnextc.
    cbn [truthy negb].
    change (PStr c) with (cursor_value (Some c)).
    rewrite (IH fuel (Some c) last (acc ++ rows)
               {| calls := NotionPost db notion_headers (request_payload cursor) :: calls w;
                  files := files w |}).
    + cbn [calls files concat map fst requests rev].
      rewrite <- !app_assoc. reflexivity.
    + congruence.
    + exact Hnext.
    + simpl in Hfuel. lia.
Qed.

(** C6: against a service that sends the pages of [script], each marked as
    having more and carrying the cursor of the next, and then a page marked
    as the last, the fetcher sends one request per page, of page size 100, the
    first without a cursor and each other with the cursor of the page before
    it, and returns the rows of all the pages in the order received. *)
Theorem fetch_all_paginates (db : pystr) (script : list (list pyval * pystr))
    (last : list pyval) (fuel : nat) (w : world) :
  NOTION_TOKEN cfg <> [] ->
  db <> [] ->
  serves db (calls w) None script last ->
  (length script < fuel)%nat ->
  fetch_all_notion_rows fuel db w
  = (Ok (concat (map fst script) ++ last),
     {| calls := rev (map (NotionPost db notion_headers) (requests None script))
                 ++ calls w;
        files := files w |}).
Proof.
  intros Htoken Hdb Hserves Hfuel. unfold fetch_all_notion_rows.
  rewrite (truthy_str _ Htoken), (truthy_str _ Hdb). cbn [negb].
  exact (fetch_loop_pages db script fuel None last [] w ltac:(discriminate)
           Hserves Hfuel).
Qed.

(** * Properties of the run *)

Lemma quiet_lift {A} (r : result A) : quiet (lift r).
Proof. intros w. split; [reflexivity|]. exists []. split; [reflexivity|constructor]. Qed.

Lemma quiet_ret {A} (a : A) : quiet (ret a).
Proof. intros w. split; [reflexivity|]. exists []. split; [reflexivity|constructor]. Qed.

Lemma quiet_call {A} (e : event) (answer : list event -> result A) :
  is_document_call e = false -> quiet (call e answer).
Proof.
  intros He w. split; [reflexivity|]. exists [e].
  split; [reflexivity|]. constructor; [exact He|constructor].
Qed.

Lemma quiet_bind {A B} (m : M A) (k : A -> M B) :
  quiet m -> (forall a, quiet (k a)) -> quiet (bind m k).
Proof.
  intros Hm Hk w. unfold bind.
  destruct (Hm w) as (Hf & evs & Hc & Hall).
  destruct (m w) as [[a|e|] w1]; cbn [fst snd] in *.
  - destruct (Hk a w1) as (Hf' & evs' & Hc' & Hall').
    split; [congruence|]. exists (evs' ++ evs).
    rewrite Hc', Hc, app_assoc. split; [reflexivity|].
    apply Forall_app. split; assumption.
  - split; [exact Hf|]. exists evs. split; assumption.
  - split; [exact Hf|]. exists evs. split; assumption.
Qed.

Lemma fetch_loop_quiet (fuel : nat) (db : pystr) (headers : list (pystr * pystr)) :
  forall (cursor : pyval) (acc : list pyval),
    quiet (fetch_loop fuel db headers cursor acc).
Proof.
  induction fuel as [|fuel IH]; intros cursor acc; [apply quiet_lift|].
  cbn [fetch_loop]. apply quiet_bind.
  - apply quiet_call. reflexivity.
  - intros r. destruct (400 <=? status_code r)%Z; [apply quiet_lift|].
    apply quiet_bind; [apply quiet_lift|intros data].
    apply quiet_bind; [apply quiet_lift|intros page].
    apply quiet_bind; [apply quiet_lift|intros rows].
    apply quiet_bind; [apply quiet_lift|intros more].
    destruct (negb (truthy more)); [apply quiet_ret|].
    apply quiet_bind; [apply quiet_lift|intros next]. apply IH.
Qed.

Lemma fetch_all_quiet (fuel : nat) (db : pystr) : quiet (fetch_all_notion_rows fuel db).
Proof.
  unfold fetch_all_notion_rows.
  destruct (negb (truthy (PStr (NOTION_TOKEN cfg)))); [apply quiet_lift|].
  destruct (negb (truthy (PStr db))); [apply quiet_lift|].
  apply fetch_loop_quiet.
Qed.

Lemma google_clients_quiet : quiet google_clients_from_token_json.
Proof.
  unfold google_clients_from_token_json.
  destruct (negb (truthy (PStr (GOOGLE_TOKEN_JSON cfg)))); [apply quiet_lift|].
  apply quiet_call. reflexivity.
Qed.

(** C7: when the fetch returns no row, the run ends there with the fatal
    error; all it has called by then is the login and the row queries: no
    document was copied, edited, exported or deleted, no file written. *)
Theorem empty_rows_abort (fuel : nat) (w w0 w1 : world) :
  google_clients_from_token_json w = (Ok tt, w0) ->
  fetch_all_notion_rows fuel (NOTION_DATABASE_ID cfg) w0 = (Ok [], w1) ->
  main fuel w
  = (Raise (SystemExit (u "ERROR: No rows found in Notion database.")), w1)
  /\ files w1 = files w
  /\ exists evs, calls w1 = evs ++ calls w
                 /\ Forall (fun e => is_document_call e = false) evs.
Proof.
  intros Hlogin Hfetch. split.
  - unfold main. unfold bind at 1. rewrite Hlogin.
    unfold bind at 1. rewrite Hfetch. reflexivity.
  - destruct (google_clients_quiet w) as (Hf0 & evs0 & Hc0 & Hall0).
    destruct (fetch_all_quiet fuel (NOTION_DATABASE_ID cfg) w0)
      as (Hf1 & evs1 & Hc1 & Hall1).
    rewrite Hlogin in Hf0, Hc0. rewrite Hfetch in Hf1, Hc1. cbn [snd] in *.
    split; [congruence|]. exists (evs1 ++ evs0).
    rewrite Hc1, Hc0, app_assoc. split; [reflexivity|].
    apply Forall_app. split; assumption.
Qed.








Lemma process_row_ok (i n : nat) (page : pyval) (w w' : world) :
  process_row i n page w = (Ok tt, w') ->
  exists (s : pystr) (repl : pydict) (doc : pyval) (data : list Byte.byte),
    slug_of_row i page = Ok s
    /\ calls w' = row_calls s repl doc data i n ++ calls w
    /\ files w' = <[pdf_path_of s := data]> (files w).
Proof.
  unfold process_row, slug_of_row, row_calls.
  unfold bind at 1, lift at 1.
  destruct (row_to_placeholder_map page) as [repl| |]; try discriminate.
  unfold bind at 1, lift at 1. cbn [rbind].
  destruct (base_name_of repl i) as [b| |]; try discriminate. cbn [rbind].
  set (s := slugify b).
  unfold copy_template_doc, replace_placeholders, export_pdf.
  destruct (negb (truthy (PStr (GOOGLE_TEMPLATE_DOC_ID cfg))));
    [unfold bind, lift, die; discriminate|].
  unfold bind, call, lift, write_bytes, emit, ret. cbn [calls files].
  destruct (drive_copy svc (calls w) (GOOGLE_TEMPLATE_DOC_ID cfg) (title_of s))
    as [copied| |]; try discriminate.
  destruct (py_getitem copied (u "id")) as [doc| |]; try discriminate.
  destruct (docs_batch_update svc _ doc repl) as [[]| |]; try discriminate.
  destruct (drive_export svc _ doc) as [data| |]; try discriminate.
  destruct (write_file svc _ (pdf_path_of s) data) as [[]| |]; try discriminate.
  destruct (DELETE_INTERMEDIATE_DOCS cfg).
  - destruct (drive_delete svc _ doc) as [[]| |]; try discriminate.
    intros H. injection H as <-. exists s, repl, doc, data.
    repeat split; reflexivity.
  - intros H. injection H as <-. exists s, repl, doc, data.
    repeat split; reflexivity.
Qed.


(** * The cleanup toggle *)

(** C10: cleanup is on exactly when the lowercased value of
    DELETE_INTERMEDIATE_DOCS is "1", "true" or "yes"; it is on when the
    variable is unset; the value is not trimmed (the token is), so a value
    with a space around it, like any other word, turns cleanup off. *)
Theorem cleanup_toggle (env : pystr -> option pystr) :
  (DELETE_INTERMEDIATE_DOCS (config_of_env env) = true
   <-> In (py_lower (getenv env "DELETE_INTERMEDIATE_DOCS" "true"))
          [u "1"; u "true"; u "yes"])
  /\ DELETE_INTERMEDIATE_DOCS
       (config_of_env (setenv env "DELETE_INTERMEDIATE_DOCS" None)) = true
  /\ (forall v, In v [u "1"; u "true"; u "yes"; u "TRUE"; u "True"; u "Yes"] ->
       DELETE_INTERMEDIATE_DOCS
         (config_of_env (setenv env "DELETE_INTERMEDIATE_DOCS" (Some v))) = true)
  /\ (forall v, In v [u " true"; u "true "; u "on"; u "0"; u "false"; u ""] ->
       DELETE_INTERMEDIATE_DOCS
         (config_of_env (setenv env "DELETE_INTERMEDIATE_DOCS" (Some v))) = false)
  /\ NOTION_TOKEN (config_of_env (setenv env "NOTION_TOKEN" (Some (u " secret "))))
     = u "secret".
Proof.
  split.
  { cbn [config_of_env DELETE_INTERMEDIATE_DOCS].
    rewrite bool_decide_eq_true. apply list_elem_of_In. }
  split; [reflexivity|].
  split.
  { intros v Hv. cbn [In] in Hv.
    repeat (destruct Hv as [<- | Hv]; [reflexivity|]). contradiction. }
  split; [|reflexivity].
  intros v Hv. cbn [In] in Hv.
  repeat (destruct Hv as [<- | Hv]; [reflexivity|]). contradiction.
Qed.

(** * Further properties of the normalizer *)

Lemma rmap_forall2 {A} (f : A -> result pyval) (items : list A) (ss : list pystr) :
  Forall2 (fun x s => f x = Ok (PStr s)) items ss ->
  rmap f items = Ok (map PStr ss).
Proof.
  induction 1 as [|x s items ss Hx _ IH]; [reflexivity|].
  cbn [rmap map]. rewrite Hx. cbn [rbind]. rewrite IH. reflexivity.
Qed.

Lemma join_strs_empty_sep (ss : list pystr) : join_strs [] ss = concat ss.
Proof.
  induction ss as [|s ss IH]; [reflexivity|].
  destruct ss as [|s' ss].
  - simpl. rewrite app_nil_r. reflexivity.
  - change (join_strs [] (s :: s' :: ss)) with (s ++ [] ++ join_strs [] (s' :: ss)).
    rewrite IH. reflexivity.
Qed.

Lemma py_or_list (items : list pyval) :
  py_iter (py_or (PList items) (PList [])) = Ok items.
Proof.
  unfold py_or. destruct (truthy (PList items)) eqn:Ht; [reflexivity|].
  simpl in Ht. apply negb_false_iff, bool_decide_eq_true_1 in Ht.
  subst items. reflexivity.
Qed.

(** The tests of [t] against the literals of the source, once [t] is
    known. *)
Ltac eval_kinds :=
  repeat match goal with
         | |- context [is_lit (PStr (u ?a)) ?b] =>
             let v := eval vm_compute in (is_lit (PStr (u a)) b) in
             change (is_lit (PStr (u a)) b) with v
         end;
  cbv beta iota delta [orb].

Ltac enter_kind Ht Hv :=
  unfold notion_prop_to_str; cbv beta iota delta [py_get rbind];
  rewrite Ht;
  match goal with
  | |- context [negb (truthy (PStr (u ?a)))] =>
      change (negb (truthy (PStr (u a)))) with false
  end;
  cbv beta iota; rewrite Hv; eval_kinds.

(** X1: a title or rich text is the texts of its runs, one after the
    other, in order; a run without text adds nothing. *)
Theorem text_is_concatenated_runs (d : pydict) (t : pystr)
    (items : list pyval) (ss : list pystr) :
  t = u "title" \/ t = u "rich_text" ->
  dict_get d (u "type") = Some (PStr t) ->
  dict_get d t = Some (PList items) ->
  Forall2 text_run_of items ss ->
  notion_prop_to_str (PDict d) = Ok (PStr (concat ss)).
Proof.
  intros Hkind Ht Hv Hruns.
  assert (Htext : rich_plain_text (PList items) = Ok (PStr (concat ss))).
  { unfold rich_plain_text. rewrite py_or_list. cbn [rbind].
    rewrite (rmap_forall2 _ items ss).
    - cbn [rbind]. rewrite py_join_strs, join_strs_empty_sep. reflexivity.
    - eapply Forall2_impl; [exact Hruns|].
      intros x s Hx. destruct x; try contradiction. unfold text_run_of in Hx.
      cbv beta iota delta [py_get].
      destruct (dict_get d0 (u "plain_text")) as [[]|]; try contradiction;
        subst; reflexivity. }
  destruct Hkind; subst t; enter_kind Ht Hv; exact Htext.
Qed.

(** X2: a multi-select is the names of its options, in order, separated
    by a comma and a space. *)
Theorem multi_select_is_joined_names (d : pydict) (items : list pyval)
    (names : list pystr) :
  dict_get d (u "type") = Some (PStr (u "multi_select")) ->
  dict_get d (u "multi_select") = Some (PList items) ->
  Forall2 option_named items names ->
  notion_prop_to_str (PDict d) = Ok (PStr (join_strs (u ", ") names)).
Proof.
  intros Ht Hv Hnames. enter_kind Ht Hv.
  rewrite py_or_list. cbn [rbind].
  rewrite (rmap_forall2 _ items names).
  - cbn [rbind]. apply py_join_strs.
  - eapply Forall2_impl; [exact Hnames|].
    intros x s Hx. destruct x; try contradiction. unfold option_named in Hx.
    cbv beta iota delta [py_getitem]. rewrite Hx. reflexivity.
Qed.

(** X3: a person list is the names of the persons, in order, separated by
    a comma and a space; a person without a name takes part with the empty
    name, so the separators stay. *)
Theorem people_is_joined_names (d : pydict) (items : list pyval)
    (names : list pystr) :
  dict_get d (u "type") = Some (PStr (u "people")) ->
  dict_get d (u "people") = Some (PList items) ->
  Forall2 person_shown items names ->
  notion_prop_to_str (PDict d) = Ok (PStr (join_strs (u ", ") names)).
Proof.
  intros Ht Hv Hnames. enter_kind Ht Hv.
  rewrite py_or_list. cbn [rbind].
  rewrite (rmap_forall2 _ items names).
  - cbn [rbind]. apply py_join_strs.
  - eapply Forall2_impl; [exact Hnames|].
    intros x s Hx. destruct x; try contradiction. unfold person_shown in Hx.
    cbv beta iota delta [py_get rbind].
    destruct (dict_get d0 (u "name")) as [[]|]; try contradiction; subst;
      try reflexivity.
    unfold py_or. destruct (truthy (PStr s0)) eqn:E; [reflexivity|].
    simpl in E. apply negb_false_iff, bool_decide_eq_true_1 in E.
    subst. reflexivity.
Qed.

(** X4: for a number, a checkbox and every kind the normalizer has no rule
    for, whatever the payload is the normalizer returns a string: these
    kinds cannot make it raise. *)
Theorem robust_kinds_never_raise (d : pydict) (t : pystr) :
  dict_get d (u "type") = Some (PStr t) ->
  t = u "number" \/ t = u "checkbox" \/ ~ In t supported_kinds ->
  exists s, notion_prop_to_str (PDict d) = Ok (PStr s).
Proof.
  intros Ht Hkind.
  unfold notion_prop_to_str. cbv beta iota delta [py_get rbind]. rewrite Ht.
  destruct (decide (t = [])) as [-> | Hne]; [exists []; reflexivity|].
  rewrite (truthy_str t Hne). cbv beta iota delta [negb].
  destruct Hkind as [-> | [-> | Hnot]].
  - eval_kinds. eexists. reflexivity.
  - eval_kinds. eexists. reflexivity.
  - unfold is_lit, str_eqb.
    repeat match goal with
           | |- context [bool_decide (t = u ?lit)] =>
               rewrite (bool_decide_eq_false_2 (t = u lit))
                 by (intros E; apply Hnot; rewrite E; unfold supported_kinds;
                     cbn [In]; repeat (try (left; reflexivity); right))
           end.
    cbv beta iota delta [orb]. eexists. reflexivity.
Qed.

(** X5: a property object without a type, or whose type is null or
    empty, normalizes to the empty string, whatever else it holds. *)
Theorem untyped_property_is_empty (d : pydict) :
  match dict_get d (u "type") with
  | None => True
  | Some t => truthy t = false
  end ->
  notion_prop_to_str (PDict d) = Ok (PStr []).
Proof.
  intros Ht. unfold notion_prop_to_str. cbv beta iota delta [py_get rbind].
  destruct (dict_get d (u "type")) as [t|]; [|reflexivity].
  rewrite Ht. reflexivity.
Qed.

(** * Further properties of the slug *)

Lemma lstrip_outside (s : pystr) : starts_outside is_space s -> lstrip s = s.
Proof.
  destruct s as [|c s]; [reflexivity|]. simpl. intros ->. reflexivity.
Qed.

Lemma safe_starts_outside (s : pystr) :
  Forall (fun c => safe_char c = true) s -> starts_outside is_space s.
Proof.
  intros Hs. destruct Hs as [|c s Hc _]; [exact I|].
  simpl. unfold safe_char in Hc. apply andb_true_iff in Hc.
  destruct Hc as [Hc _]. apply negb_true_iff in Hc. exact Hc.
Qed.

Lemma strip_safe (s : pystr) :
  Forall (fun c => safe_char c = true) s -> strip s = s.
Proof.
  intros Hs. unfold strip.
  rewrite (lstrip_outside s (safe_starts_outside s Hs)).
  rewrite lstrip_outside; [apply rev_involutive|].
  apply safe_starts_outside. apply List.Forall_rev. exact Hs.
Qed.

Lemma filter_allowed_safe (s : pystr) :
  Forall (fun c => safe_char c = true) s -> List.filter allowed s = s.
Proof.
  induction 1 as [|c s Hc _ IH]; [reflexivity|].
  cbn [List.filter]. unfold safe_char in Hc. apply andb_true_iff in Hc.
  destruct Hc as [_ ->]. rewrite IH. reflexivity.
Qed.

Lemma re_sub_runs_safe (r s : pystr) (b : bool) :
  Forall (fun c => safe_char c = true) s -> re_sub_runs is_space r b s = s.
Proof.
  intros Hs. revert b. induction Hs as [|c s Hc _ IH]; intros b; [reflexivity|].
  cbn [re_sub_runs]. unfold safe_char in Hc. apply andb_true_iff in Hc.
  destruct Hc as [Hc _]. apply negb_true_iff in Hc. rewrite Hc, IH. reflexivity.
Qed.

(** On text made of safe characters the slug is the text, cut to 120. *)
Lemma slugify_on_safe (s : pystr) :
  s <> [] -> Forall (fun c => safe_char c = true) s -> slugify s = firstn 120 s.
Proof.
  intros Hne Hs. rewrite slugify_cleaned. unfold cleaned, re_sub.
  rewrite (strip_safe s Hs), (filter_allowed_safe s Hs), (re_sub_runs_safe _ s _ Hs).
  destruct s; [congruence|reflexivity].
Qed.

Lemma cleaned_safe (s : pystr) : Forall (fun c => safe_char c = true) (cleaned s).
Proof.
  unfold cleaned, re_sub.
  assert (Hkept : Forall (fun c => allowed c = true) (List.filter allowed (strip s))).
  { apply List.Forall_forall. intros c Hc. apply filter_In in Hc.
    destruct Hc as [_ Hc]. exact Hc. }
  enough (H : forall b, Forall (fun c => safe_char c = true)
                          (re_sub_runs is_space (u "_") b
                             (List.filter allowed (strip s))))
    by apply H.
  induction Hkept as [|c k Hc Hkept IH]; intros b; [constructor|].
  cbn [re_sub_runs]. destruct (is_space c) eqn:Hsp.
  - apply Forall_app. split; [|apply IH].
    destruct b; [constructor|]. repeat constructor.
  - constructor; [|apply IH]. unfold safe_char. rewrite Hsp, Hc. reflexivity.
Qed.

Lemma slugify_safe (s : pystr) : Forall (fun c => safe_char c = true) (slugify s).
Proof.
  rewrite slugify_cleaned. pose proof (cleaned_safe s) as Hc.
  destruct (cleaned s) as [|c k]; [repeat constructor|].
  rewrite <- (firstn_skipn 120 (c :: k)) in Hc.
  apply Forall_app in Hc. destruct Hc as [Hc _]. exact Hc.
Qed.

Lemma slugify_length (s : pystr) : (0 < length (slugify s) <= 120)%nat.
Proof.
  rewrite slugify_cleaned. destruct (cleaned s) as [|c k]; [simpl; lia|].
  rewrite length_firstn. cbn [length]. lia.
Qed.

(** X6: deriving the slug of a slug changes nothing. *)
Theorem slugify_idempotent (s : pystr) : slugify (slugify s) = slugify s.
Proof.
  pose proof (slugify_length s) as Hlen.
  rewrite slugify_on_safe.
  - apply firstn_all2. lia.
  - intros E. rewrite E in Hlen. simpl in Hlen. lia.
  - apply slugify_safe.
Qed.

(** X7: a slug holds no path separator, no dot, no colon and no NUL: the
    file name made of it names a file of the output directory itself. *)
Theorem slug_has_no_separator (s : pystr) :
  ~ In 47 (slugify s) /\ ~ In 92 (slugify s) /\ ~ In 46 (slugify s)
  /\ ~ In 58 (slugify s) /\ ~ In 0 (slugify s).
Proof.
  pose proof (slugify_safe s) as Hs. rewrite List.Forall_forall in Hs.
  repeat split; intros Hin; apply Hs in Hin; discriminate Hin.
Qed.

Lemma uint_chars_safe (d : Decimal.uint) :
  Forall (fun c => safe_char c = true) (u (NilEmpty.string_of_uint d)).
Proof.
  unfold u.
  induction d; cbn [NilEmpty.string_of_uint list_ascii_of_string map];
    constructor; try assumption; reflexivity.
Qed.

Lemma index_chars_safe (i : nat) :
  Forall (fun c => safe_char c = true) (str_of_Z (Z.of_nat i)).
Proof.
  unfold str_of_Z, Z.to_int.
  destruct (Z.of_nat i) eqn:E; [repeat constructor| |lia].
  cbn [NilZero.string_of_int]. unfold NilZero.string_of_uint.
  destruct (Pos.to_uint p) eqn:Ed; try (rewrite <- Ed; apply uint_chars_safe).
  repeat constructor.
Qed.

(** X8: a row in which no column of the preference list has a value gets
    the slug [row_<i>] (cut to 120 characters), with the index in decimal. *)
Theorem fallback_slug (i : nat) (page : pyval) (repl : pydict) :
  row_to_placeholder_map page = Ok repl ->
  Forall (blank_or_absent repl) preferred_cols ->
  slug_of_row i page = Ok (firstn 120 (u "row_" ++ str_of_Z (Z.of_nat i))).
Proof.
  intros Hmap Hblank. unfold slug_of_row. rewrite Hmap. cbn [rbind].
  unfold base_name_of.
  rewrite <- (app_nil_r preferred_cols) at 1.
  rewrite (pick_base_name_skips repl preferred_cols [] Hblank).
  cbn [pick_base_name rbind]. f_equal. apply slugify_on_safe.
  - discriminate.
  - apply Forall_app. split; [repeat constructor|apply index_chars_safe].
Qed.

(** * Further properties of the row fetcher *)

Lemma request_payload_of_cursor (cursor : option pystr) :
  cursor <> Some [] ->
  (if truthy (cursor_value cursor)
   then dict_set [(u "page_size", PInt 100)] (u "start_cursor") (cursor_value cursor)
   else [(u "page_size", PInt 100)]) = request_payload cursor.
Proof.
  intros Hcur. destruct cursor as [k|]; [|reflexivity].
  cbn [cursor_value].
  rewrite truthy_str by (intros Hk; apply Hcur; rewrite Hk; reflexivity).
  reflexivity.
Qed.

Lemma cursor_after_nonempty (cursor : option pystr)
    (script : list (list pyval * pystr)) :
  cursor <> Some [] ->
  Forall (fun p => snd p <> []) script ->
  cursor_after cursor script <> Some [].
Proof.
  intros Hcur Hs. revert cursor Hcur.
  induction Hs as [|[rows c] script Hc _ IH]; intros cursor Hcur; [exact Hcur|].
  cbn [cursor_after]. apply IH. cbn [snd] in Hc. congruence.
Qed.

Lemma serves_pages_cursors (db : pystr) (h : list event) (cursor : option pystr)
    (script : list (list pyval * pystr)) :
  serves_pages db h cursor script -> Forall (fun p => snd p <> []) script.
Proof.
  induction 1 as [|h cursor rows c script Hpage _ IH]; [constructor|].
  constructor; [|exact IH].
  destruct Hpage as (r & d & _ & _ & _ & _ & _ & _ & Hne). exact Hne.
Qed.

(** The loop takes the pages of [script] one per iteration and goes on
    from the cursor of the last. *)
Lemma fetch_loop_prefix (db : pystr) (script : list (list pyval * pystr)) :
  forall (fuel : nat) (cursor : option pystr) (acc : list pyval) (w : world),
    cursor <> Some [] ->
    serves_pages db (calls w) cursor script ->
    fetch_loop (length script + fuel) db notion_headers (cursor_value cursor) acc w
    = fetch_loop fuel db notion_headers
        (cursor_value (cursor_after cursor script))
        (acc ++ concat (map fst script))
        {| calls := rev (map (NotionPost db notion_headers)
                           (requests_for cursor script)) ++ calls w;
           files := files w |}.
Proof.
  induction script as [|[rows c] script IH]; intros fuel cursor acc w Hcur Hserves.
  - cbn [length Nat.add cursor_after map concat requests_for rev app].
    rewrite app_nil_r. destruct w. reflexivity.
  - inversion Hserves as [|h cu rs c' sc Hpage Hnext]; subst.
    destruct Hpage as (r & d & Hr & Hstatus & Hjson & Hrows & Hmore & Hnextc & Hne).
    cbn [length Nat.add fetch_loop].
    rewrite (request_payload_of_cursor cursor Hcur).
    unfold bind at 1, call at 1. rewrite Hr.
    destruct (400 <=? status_code r)%Z eqn:E; [apply Z.leb_le in E; lia|].
    unfold bind, lift, ret. rewrite Hjson.
    cbv beta iota delta [py_get]. rewrite Hrows. cbn [py_iter].
    rewrite Hmore, Hnextc. cbn [truthy negb].
    change (PStr c) with (cursor_value (Some c)).
    rewrite (IH fuel (Some c) (acc ++ rows)
               {| calls := NotionPost db notion_headers (request_payload cursor) :: calls w;
                  files := files w |});
      [|congruence|exact Hnext].
    cbn [calls files cursor_after concat map fst requests_for rev].
    rewrite <- !app_assoc. reflexivity.
Qed.

(** X9: when the service answers a request with a status of 400 or more,
    the fetch ends with the fatal error that carries the status and the body;
    the rows of the pages received before are not returned, and no request
    follows. *)
Theorem fetch_error_aborts (db : pystr) (script : list (list pyval * pystr))
    (r : response) (fuel : nat) (w : world) :
  NOTION_TOKEN cfg <> [] ->
  db <> [] ->
  serves_pages db (calls w) None script ->
  notion_post svc (calls (after_pages db script w)) db
    (request_payload (cursor_after None script)) = Ok r ->
  (400 <= status_code r)%Z ->
  (length script < fuel)%nat ->
  fetch_all_notion_rows fuel db w
  = (Raise (SystemExit (u "ERROR: Notion API error " ++ str_of_Z (status_code r)
                        ++ u ": " ++ text r)),
     {| calls := NotionPost db notion_headers
                   (request_payload (cursor_after None script))
                 :: calls (after_pages db script w);
        files := files w |}).
Proof.
  intros Htoken Hdb Hserves Hr Hstatus Hfuel. unfold fetch_all_notion_rows.
  rewrite (truthy_str _ Htoken), (truthy_str _ Hdb). cbn [negb].
  replace fuel with (length script + S (fuel - S (length script)))%nat by lia.
  change PNone with (cursor_value None).
  change ([(u "Authorization", u "Bearer " ++ NOTION_TOKEN cfg);
           (u "Notion-Version", NOTION_VERSION cfg);
           (u "Content-Type", u "application/json")]) with notion_headers.
  rewrite (fetch_loop_prefix db script _ None [] w ltac:(discriminate) Hserves).
  cbn [fetch_loop].
  rewrite request_payload_of_cursor
    by (apply cursor_after_nonempty;
        [discriminate|exact (serves_pages_cursors _ _ _ _ Hserves)]).
  unfold bind at 1, call at 1. cbn [calls files].
  unfold after_pages in Hr. cbn [calls] in Hr. rewrite Hr.
  apply Z.leb_le in Hstatus. rewrite Hstatus. reflexivity.
Qed.

(** X11: the fetcher sets no bound on the number of pages: against a
    service that marks every page as having more, it sends a request at
    every iteration and does not return, however long it runs. *)
Theorem fetch_never_returns (db : pystr) :
  NOTION_TOKEN cfg <> [] ->
  db <> [] ->
  (forall h payload, exists rows c,
      page_of (notion_post svc h db payload) rows (Some c)) ->
  forall (fuel : nat) (w : world),
    fst (fetch_all_notion_rows fuel db w) = OutOfFuel
    /\ length (calls (snd (fetch_all_notion_rows fuel db w)))
       = (fuel + length (calls w))%nat.
Proof.
  intros Htoken Hdb Hmore fuel w.
  enough (H : exists w', fetch_all_notion_rows fuel db w = (OutOfFuel, w')
                         /\ length (calls w') = (fuel + length (calls w))%nat)
    by (destruct H as (w' & -> & Hlen); split; [reflexivity|exact Hlen]).
  unfold fetch_all_notion_rows.
  rewrite (truthy_str _ Htoken), (truthy_str _ Hdb). cbn [negb].
  generalize (@nil pyval) as acc. generalize PNone as cursor.
  match goal with
  | |- context [fetch_loop _ _ ?h _ _ _] => generalize h as headers
  end.
  revert w. induction fuel as [|fuel IH]; intros w headers cursor acc;
    [exists w; split; reflexivity|].
  cbn [fetch_loop]. unfold bind at 1, call at 1.
  match goal with
  | |- context [notion_post svc (calls w) db ?p] =>
      destruct (Hmore (calls w) p)
        as (rows & c & r & d & Hr & Hstatus & Hjson & Hrows & Hm & Hc & Hne);
      rewrite Hr
  end.
  destruct (400 <=? status_code r)%Z eqn:E; [apply Z.leb_le in E; lia|].
  unfold bind, lift, ret. rewrite Hjson.
  cbv beta iota delta [py_get]. rewrite Hrows. cbn [py_iter].
  rewrite Hm, Hc. cbn [truthy negb].
  match goal with
  | |- context [fetch_loop fuel db headers ?cu ?ac ?w1] =>
      destruct (IH w1 headers cu ac) as (w' & Hres & Hlen)
  end.
  exists w'. split; [exact Hres|]. rewrite Hlen. cbn [calls length]. lia.
Qed.

(** X12: a page marked as having more but carrying no cursor (none, null,
    empty or otherwise falsy), whichever page of the fetch it is, makes the
    fetcher send its next request without a cursor, that is, ask for the
    first page again; the cursor of the page before is not sent again. *)
Theorem missing_cursor_restarts (db : pystr) (script : list (list pyval * pystr))
    (r1 r2 : response) (d1 d2 : pydict) (rows1 rows2 : list pyval)
    (fuel : nat) (w : world) :
  NOTION_TOKEN cfg <> [] ->
  db <> [] ->
  serves_pages db (calls w) None script ->
  notion_post svc (calls (after_pages db script w)) db
    (request_payload (cursor_after None script)) = Ok r1 ->
  (status_code r1 < 400)%Z ->
  json r1 = Ok (PDict d1) ->
  dict_get d1 (u "results") = Some (PList rows1) ->
  dict_get d1 (u "has_more") = Some (PBool true) ->
  truthy (match dict_get d1 (u "next_cursor") with
          | Some v => v
          | None => PNone
          end) = false ->
  notion_post svc
    (NotionPost db notion_headers (request_payload (cursor_after None script))
     :: calls (after_pages db script w))
    db (request_payload None) = Ok r2 ->
  (status_code r2 < 400)%Z ->
  json r2 = Ok (PDict d2) ->
  dict_get d2 (u "results") = Some (PList rows2) ->
  dict_get d2 (u "has_more") = Some (PBool false) ->
  (length script + 1 < fuel)%nat ->
  fetch_all_notion_rows fuel db w
  = (Ok (concat (map fst script) ++ rows1 ++ rows2),
     {| calls := NotionPost db notion_headers (request_payload None)
                 :: NotionPost db notion_headers
                      (request_payload (cursor_after None script))
                 :: calls (after_pages db script w);
        files := files w |}).
Proof.
  intros Htoken Hdb Hserves Hr1 Hs1 Hj1 Hrows1 Hmore1 Hcur Hr2 Hs2 Hj2 Hrows2
    Hmore2 Hfuel.
  unfold fetch_all_notion_rows.
  rewrite (truthy_str _ Htoken), (truthy_str _ Hdb). cbn [negb].
  change ([(u "Authorization", u "Bearer " ++ NOTION_TOKEN cfg);
           (u "Notion-Version", NOTION_VERSION cfg);
           (u "Content-Type", u "application/json")]) with notion_headers.
  replace fuel with (length script + S (S (fuel - length script - 2)))%nat by lia.
  change PNone with (cursor_value None).
  rewrite (fetch_loop_prefix db script _ None [] w ltac:(discriminate) Hserves).
  unfold after_pages in *. cbn [calls files] in *.
  cbn [fetch_loop].
  rewrite request_payload_of_cursor
    by (apply cursor_after_nonempty;
        [discriminate|exact (serves_pages_cursors _ _ _ _ Hserves)]).
  unfold bind at 1, call at 1. cbn [calls files]. rewrite Hr1.
  destruct (400 <=? status_code r1)%Z eqn:E1; [apply Z.leb_le in E1; lia|].
  unfold bind at 1 2 3 4 5, lift at 1 2 3 4 5. rewrite Hj1.
  cbv beta iota delta [py_get]. rewrite Hrows1. cbn [py_iter].
  rewrite Hmore1. cbn [truthy negb]. rewrite Hcur.
  change [(u "page_size", PInt 100)] with (request_payload None).
  unfold bind at 1, call at 1. cbn [calls files]. rewrite Hr2.
  destruct (400 <=? status_code r2)%Z eqn:E2; [apply Z.leb_le in E2; lia|].
  unfold bind, lift, ret. rewrite Hj2.
  cbv beta iota delta [py_get]. rewrite Hrows2. cbn [py_iter].
  rewrite Hmore2. cbn [truthy negb app]. rewrite <- app_assoc. reflexivity.
Qed.

(** * Further properties of the placeholder map *)

Lemma dict_get_app_fresh (d d' : pydict) (k : pystr) :
  ~ In k (map fst d) -> dict_get (d ++ d') k = dict_get d' k.
Proof.
  induction d as [|[k' v'] d IH]; intros Hk; [reflexivity|].
  cbn [app dict_get]. destruct (str_eqb k' k) eqn:E.
  - apply str_eqb_eq in E. subst. exfalso. apply Hk. left. reflexivity.
  - apply IH. intros Hin. apply Hk. right. exact Hin.
Qed.

Lemma dict_get_entries (props : pydict) (vals : list pyval) (col : pystr) :
  Forall2 (fun kv v => notion_prop_to_str (snd kv) = Ok v) props vals ->
  match dict_get props col with
  | Some p => exists v, notion_prop_to_str p = Ok v
                        /\ dict_get (entries props vals) (placeholder col) = Some v
  | None => dict_get (entries props vals) (placeholder col) = None
  end.
Proof.
  induction 1 as [|[k p] v props vals Hv _ IH]; [reflexivity|].
  unfold entries. cbn [combine map fst snd dict_get].
  unfold str_eqb. destruct (decide (k = col)) as [-> | Hne].
  - rewrite !bool_decide_eq_true_2 by reflexivity. exists v. split; [exact Hv|reflexivity].
  - rewrite (bool_decide_eq_false_2 (k = col)) by exact Hne.
    rewrite (bool_decide_eq_false_2 (placeholder k = placeholder col))
      by (intros E; apply Hne, placeholder_inj, E).
    exact IH.
Qed.

(** X13: looking a column's placeholder up in the placeholder map of a row
    gives the normalized value of that column, and a name that is no column
    of the row is not in the map. *)
Theorem placeholder_lookup (d props : pydict) (vals : list pyval) :
  dict_get d (u "properties") = Some (PDict props) ->
  List.NoDup (map fst props) ->
  Forall2 (fun kv v => notion_prop_to_str (snd kv) = Ok v) props vals ->
  exists repl,
    row_to_placeholder_map (PDict d) = Ok repl
    /\ forall col,
         match dict_get props col with
         | Some p => exists v, notion_prop_to_str p = Ok v
                               /\ dict_get repl (placeholder col) = Some v
         | None => dict_get repl (placeholder col) = None
         end.
Proof.
  intros Hprops Hnd Hvals. exists (entries props vals). split.
  - unfold row_to_placeholder_map. cbv beta iota delta [py_get rbind].
    rewrite Hprops.
    rewrite (fill_placeholders_entries props vals Hvals []); [reflexivity|].
    cbn [map app]. clear Hvals Hprops.
    induction Hnd as [|k ks Hk Hnd IH]; [apply List.NoDup_nil|].
    cbn [map]. apply List.NoDup_cons; [|exact IH].
    intros Hin. apply in_map_iff in Hin. destruct Hin as (k' & Hk' & Hin).
    apply placeholder_inj in Hk'. subst k'. exact (Hk Hin).
  - intros col. apply dict_get_entries. exact Hvals.
Qed.

Lemma fill_placeholders_raises (before after : pydict) (col : pystr)
    (prop : pyval) (e : exn) :
  Forall (fun kv => exists v, notion_prop_to_str (snd kv) = Ok v) before ->
  notion_prop_to_str prop = Raise e ->
  forall repl, fill_placeholders (before ++ (col, prop) :: after) repl = Raise e.
Proof.
  intros Hbefore Hprop.
  induction Hbefore as [|[k p] before [v Hv] _ IH]; intros repl.
  - cbn [app fill_placeholders]. rewrite Hprop. reflexivity.
  - cbn [app fill_placeholders]. cbn [snd] in Hv. rewrite Hv. cbn [rbind].
    apply IH.
Qed.

(** X14: when the normalizer raises on a column of a row, processing the
    row raises the same exception before anything is called: no copy is
    made for the row. *)
Theorem malformed_column_aborts_row (d before after : pydict) (col : pystr)
    (prop : pyval) (e : exn) (i n : nat) (w : world) :
  dict_get d (u "properties") = Some (PDict (before ++ (col, prop) :: after)) ->
  Forall (fun kv => exists v, notion_prop_to_str (snd kv) = Ok v) before ->
  notion_prop_to_str prop = Raise e ->
  process_row i n (PDict d) w = (Raise e, w).
Proof.
  intros Hprops Hbefore Hprop. unfold process_row.
  unfold bind at 1, lift at 1.
  unfold row_to_placeholder_map. cbv beta iota delta [py_get rbind].
  rewrite Hprops.
  rewrite (fill_placeholders_raises before after col prop e Hbefore Hprop).
  reflexivity.
Qed.

(** * Further properties of the run *)

Lemma calls_only_lift (P : event -> Prop) {A} (r : result A) : calls_only P (lift r).
Proof. intros w. exists []. split; [reflexivity|constructor]. Qed.

Lemma calls_only_ret (P : event -> Prop) {A} (a : A) : calls_only P (ret a).
Proof. intros w. exists []. split; [reflexivity|constructor]. Qed.

Lemma calls_only_emit (P : event -> Prop) (e : event) : P e -> calls_only P (emit e).
Proof.
  intros He w. exists [e]. split; [reflexivity|]. constructor; [exact He|constructor].
Qed.

Lemma calls_only_call (P : event -> Prop) {A} (e : event)
    (answer : list event -> result A) :
  P e -> calls_only P (call e answer).
Proof.
  intros He w. exists [e]. split; [reflexivity|]. constructor; [exact He|constructor].
Qed.

Lemma calls_only_write (P : event -> Prop) (p : path) (data : list Byte.byte) :
  P (WriteBytes p data) -> calls_only P (write_bytes p data).
Proof.
  intros He w. exists [WriteBytes p data]. split.
  - unfold write_bytes. destruct (write_file svc (calls w) p data); reflexivity.
  - constructor; [exact He|constructor].
Qed.

Lemma calls_only_bind (P : event -> Prop) {A B} (m : M A) (k : A -> M B) :
  calls_only P m -> (forall a, calls_only P (k a)) -> calls_only P (bind m k).
Proof.
  intros Hm Hk w. unfold bind.
  destruct (Hm w) as (evs & Hc & Hall).
  destruct (m w) as [[a|e|] w1]; cbn [fst snd] in *.
  - destruct (Hk a w1) as (evs' & Hc' & Hall').
    exists (evs' ++ evs). rewrite Hc', Hc, app_assoc. split; [reflexivity|].
    apply Forall_app. split; assumption.
  - exists evs. split; assumption.
  - exists evs. split; assumption.
Qed.

Lemma fetch_loop_calls_only (P : event -> Prop) (fuel : nat) (db : pystr)
    (headers : list (pystr * pystr)) :
  (forall payload, P (NotionPost db headers payload)) ->
  forall (cursor : pyval) (acc : list pyval),
    calls_only P (fetch_loop fuel db headers cursor acc).
Proof.
  intros HP. induction fuel as [|fuel IH]; intros cursor acc;
    [apply calls_only_lift|].
  cbn [fetch_loop]. apply calls_only_bind; [apply calls_only_call, HP|].
  intros r. destruct (400 <=? status_code r)%Z; [apply calls_only_lift|].
  apply calls_only_bind; [apply calls_only_lift|intros data].
  apply calls_only_bind; [apply calls_only_lift|intros page].
  apply calls_only_bind; [apply calls_only_lift|intros rows].
  apply calls_only_bind; [apply calls_only_lift|intros more].
  destruct (negb (truthy more)); [apply calls_only_ret|].
  apply calls_only_bind; [apply calls_only_lift|intros next]. apply IH.
Qed.

(** X15: with cleanup off, a run never deletes a document, whatever the
    rows are and whatever the collaborators answer. *)
Theorem no_delete_when_cleanup_off (fuel : nat) :
  DELETE_INTERMEDIATE_DOCS cfg = false ->
  calls_only (fun e => is_delete e = false) (main fuel).
Proof.
  intros Hoff.
  assert (Hrow : forall i n page,
             calls_only (fun e => is_delete e = false) (process_row i n page)).
  { intros i n page.
    unfold process_row, copy_template_doc, replace_placeholders, export_pdf.
    rewrite Hoff.
    repeat first
      [ apply calls_only_lift | apply calls_only_ret
      | apply calls_only_emit; reflexivity
      | apply calls_only_call; reflexivity
      | apply calls_only_write; reflexivity
      | apply calls_only_bind; [|intros ?]
      | match goal with
        | |- calls_only _ (if ?b then _ else _) => destruct b
        end ]. }
  assert (Hrows : forall rows i n,
             calls_only (fun e => is_delete e = false) (process_rows i n rows)).
  { induction rows as [|page rows IH]; intros i n; [apply calls_only_ret|].
    cbn [process_rows]. apply calls_only_bind; [apply Hrow|intros _; apply IH]. }
  unfold main, google_clients_from_token_json, fetch_all_notion_rows.
  apply calls_only_bind.
  { destruct (negb (truthy (PStr (GOOGLE_TOKEN_JSON cfg))));
      [apply calls_only_lift|apply calls_only_call; reflexivity]. }
  intros _. apply calls_only_bind.
  { destruct (negb (truthy (PStr (NOTION_TOKEN cfg)))); [apply calls_only_lift|].
    destruct (negb (truthy (PStr (NOTION_DATABASE_ID cfg)))); [apply calls_only_lift|].
    apply fetch_loop_calls_only. reflexivity. }
  intros rows. destruct (negb (truthy (PList rows))); [apply calls_only_lift|].
  apply calls_only_bind; [apply calls_only_emit; reflexivity|intros _].
  apply calls_only_bind; [apply Hrows|intros _].
  apply calls_only_emit. reflexivity.
Qed.

Lemma process_row_without_template (i n : nat) (page : pyval) (w : world) :
  GOOGLE_TEMPLATE_DOC_ID cfg = [] ->
  exists e, process_row i n page w = (Raise e, w)
            \/ process_row i n page w = (OutOfFuel, w).
Proof.
  intros Hnone. unfold process_row, copy_template_doc. rewrite Hnone.
  change (negb (truthy (PStr []))) with true. cbv iota.
  unfold bind, lift, die.
  destruct (row_to_placeholder_map page) as [repl|e|];
    [|exists e; left; reflexivity|exists KeyError; right; reflexivity].
  destruct (base_name_of repl i) as [b|e|];
    [|exists e; left; reflexivity|exists KeyError; right; reflexivity].
  eexists. left. reflexivity.
Qed.

(** X10: without a template id, a run copies, edits, exports and deletes
    no document and writes no file, and it does not succeed: the first row
    ends it. *)
Theorem no_template_no_document (fuel : nat) :
  GOOGLE_TEMPLATE_DOC_ID cfg = [] ->
  quiet (main fuel) /\ forall w, fst (main fuel w) <> Ok tt.
Proof.
  intros Hnone.
  assert (Hrows : forall rows i n w,
             rows <> [] ->
             exists r, process_rows i n rows w = (r, w) /\ r <> Ok tt).
  { intros [|page rows] i n w Hne; [congruence|].
    cbn [process_rows]. unfold bind.
    destruct (process_row_without_template i n page w Hnone) as [e [-> | ->]];
      eexists; (split; [reflexivity|discriminate]). }
  assert (Htail : forall rows : list pyval,
             quiet (if negb (truthy (PList rows))
                    then lift (die (u "No rows found in Notion database."))
                    else bind (emit (PrintFound (length rows) (OUTPUT_DIR cfg)))
                           (fun _ => bind (process_rows 1 (length rows) rows)
                                       (fun _ => emit PrintDone)))
             /\ forall w,
                 fst ((if negb (truthy (PList rows))
                       then lift (die (u "No rows found in Notion database."))
                       else bind (emit (PrintFound (length rows) (OUTPUT_DIR cfg)))
                              (fun _ => bind (process_rows 1 (length rows) rows)
                                          (fun _ => emit PrintDone))) w)
                 <> Ok tt).
  { intros rows. destruct rows as [|page rows].
    - split; [apply quiet_lift|intros w; discriminate].
    - change (negb (truthy (PList (page :: rows)))) with false. cbv iota.
      assert (Hrun : forall w, exists r,
                 bind (emit (PrintFound (length (page :: rows)) (OUTPUT_DIR cfg)))
                   (fun _ => bind (process_rows 1 (length (page :: rows)) (page :: rows))
                               (fun _ => emit PrintDone)) w
                 = (r, {| calls := PrintFound (length (page :: rows)) (OUTPUT_DIR cfg)
                                   :: calls w;
                          files := files w |})
                 /\ r <> Ok tt).
      { intros w. unfold bind at 1, emit at 1. unfold bind at 1.
        destruct (Hrows (page :: rows) 1%nat (length (page :: rows))
                    {| calls := PrintFound (length (page :: rows)) (OUTPUT_DIR cfg)
                                :: calls w;
                       files := files w |} ltac:(discriminate))
          as (r & -> & Hr).
        destruct r as [[]|e|]; [congruence| |]; eexists;
          (split; [reflexivity|discriminate]). }
      split.
      + intros w. destruct (Hrun w) as (r & -> & _). cbn [snd calls files].
        split; [reflexivity|]. exists [PrintFound (length (page :: rows)) (OUTPUT_DIR cfg)].
        split; [reflexivity|]. repeat constructor.
      + intros w. destruct (Hrun w) as (r & -> & Hr). exact Hr. }
  split.
  - unfold main. apply quiet_bind; [apply google_clients_quiet|intros _].
    apply quiet_bind; [apply fetch_all_quiet|intros rows]. apply Htail.
  - intros w. unfold main. unfold bind at 1.
    destruct (google_clients_from_token_json w) as [[[]|e|] w0];
      [|discriminate|discriminate].
    unfold bind at 1.
    destruct (fetch_all_notion_rows fuel (NOTION_DATABASE_ID cfg) w0)
      as [[rows|e|] w1]; [|discriminate|discriminate].
    apply Htail.
Qed.

Lemma process_rows_ok (rows : list pyval) :
  forall (i n : nat) (w w' : world),
    process_rows i n rows w = (Ok tt, w') ->
    exists rs : list rendered,
      rows_rendered i rows rs
      /\ calls w' = run_calls i n rs ++ calls w
      /\ files w' = run_files rs (files w).
Proof.
  induction rows as [|page rows IH]; intros i n w w' Hrun.
  - cbn [process_rows] in Hrun. injection Hrun as <-. exists [].
    repeat split.
  - cbn [process_rows] in Hrun. unfold bind in Hrun at 1.
    destruct (process_row i n page w) as [[[]|e|] w1] eqn:Hrow; try discriminate.
    destruct (process_row_ok _ _ _ _ _ Hrow) as (s & repl & doc & data & Hs & Hc & Hf).
    destruct (IH _ _ _ _ Hrun) as (rs & Hrs & Hc' & Hf').
    exists ((s, repl, doc, data) :: rs). split; [split; assumption|]. split.
    + cbn [run_calls]. rewrite Hc', Hc, app_assoc. reflexivity.
    + unfold run_files in *. cbn [fold_left fst snd]. rewrite Hf', Hf. reflexivity.
Qed.

(** X16: a run that succeeds has logged in, fetched a non-empty list of
    rows, and then for each row, in order and at the indices from 1 on, made
    one copy under the title of the row's slug, one substitution, one export
    and one file (and one deletion when cleanup is on), with the number of
    rows as the total of every progress line. *)
Theorem successful_run (fuel : nat) (w w' : world) :
  main fuel w = (Ok tt, w') ->
  exists (w0 w1 : world) (rows : list pyval) (rs : list rendered),
    google_clients_from_token_json w = (Ok tt, w0)
    /\ fetch_all_notion_rows fuel (NOTION_DATABASE_ID cfg) w0 = (Ok rows, w1)
    /\ rows <> []
    /\ rows_rendered 1 rows rs
    /\ length rs = length rows
    /\ calls w' = PrintDone :: run_calls 1 (length rows) rs
                  ++ PrintFound (length rows) (OUTPUT_DIR cfg) :: calls w1
    /\ files w' = run_files rs (files w1).
Proof.
  unfold main. unfold bind at 1.
  destruct (google_clients_from_token_json w) as [[[]|e|] w0] eqn:Hlogin;
    try discriminate.
  unfold bind at 1.
  destruct (fetch_all_notion_rows fuel (NOTION_DATABASE_ID cfg) w0)
    as [[rows|e|] w1] eqn:Hfetch; try discriminate.
  destruct rows as [|page rows]; [discriminate|].
  change (negb (truthy (PList (page :: rows)))) with false. cbv iota.
  unfold bind at 1, emit at 1. unfold bind at 1.
  destruct (process_rows 1 (length (page :: rows)) (page :: rows) _)
    as [[[]|e|] w2] eqn:Hrows; try discriminate.
  unfold emit. intros H. injection H as <-.
  destruct (process_rows_ok _ _ _ _ _ Hrows) as (rs & Hrs & Hc & Hf).
  exists w0, w1, (page :: rows), rs.
  split; [reflexivity|]. split; [exact Hfetch|]. split; [discriminate|].
  split; [exact Hrs|]. split.
  - clear Hc Hf Hrows. revert Hrs. generalize 1%nat. generalize (page :: rows).
    induction rs as [|[[[s repl] doc] data] rs IH]; intros [|p l] i Hr;
      try contradiction; [reflexivity|].
    cbn [length]. f_equal. exact (IH l (S i) (proj2 Hr)).
  - cbn [calls files]. rewrite Hc, Hf. cbn [calls files].
    split; reflexivity.
Qed.



End Interpreter.

(** * The configuration of a run *)

Lemma lstrip_blank (v : pystr) :
  Forall (fun c => is_space c = true) v -> lstrip v = [].
Proof.
  induction 1 as [|c v Hc _ IH]; [reflexivity|]. simpl. rewrite Hc. exact IH.
Qed.

(** X17: a NOTION_TOKEN that is unset, empty or made of white space only
    counts as missing: the fetch ends with the fatal error and sends no
    request. *)
Theorem blank_token_is_missing (unicode_lower : pystr -> pystr) (svc : services)
    (env : pystr -> option pystr) (fuel : nat) (db : pystr) (w : world) :
  match env (u "NOTION_TOKEN") with
  | None => True
  | Some v => Forall (fun c => is_space c = true) v
  end ->
  fetch_all_notion_rows svc (config_of_env unicode_lower env) fuel db w
  = (Raise (SystemExit
              (u "ERROR: NOTION_TOKEN is missing (set GitHub secret NOTION_TOKEN).")),
     w).
Proof.
  intros Henv.
  assert (Htoken : NOTION_TOKEN (config_of_env unicode_lower env) = []).
  { cbn [config_of_env NOTION_TOKEN]. unfold getenv.
    destruct (env (u "NOTION_TOKEN")) as [v|]; [|reflexivity].
    unfold strip. rewrite (lstrip_blank v Henv). reflexivity. }
  unfold fetch_all_notion_rows. rewrite Htoken. reflexivity.
Qed.

(** * Closed instances *)

(** C1: a formula that computes the number 42 normalizes to "42". *)
Lemma formula_is_str_of_computed_witness :
  notion_prop_to_str quoted float_text
    (property "formula" (computed "number" (PInt 42)))
  = Ok (PStr (u "42")).
Proof.
  pose proof (formula_is_str_of_computed quoted float_text
                [(u "id", PStr (u "abc")); (u "type", PStr (u "formula"));
                 (u "formula", computed "number" (PInt 42))]
                [(u "type", PStr (u "number")); (u "number", PInt 42)]
                (u "number") eq_refl eq_refl eq_refl ltac:(discriminate)) as H.
  exact H.
Defined.

(** C1 fails as stated: a formula that computes a boolean does not
    normalize as a checkbox of the same value does. *)
Lemma formula_not_normalized_by_kind :
  (forall repr_str repr_float,
      notion_prop_to_str repr_str repr_float (property "checkbox" (PBool true))
      = Ok (PStr (u "TRUE"))
      /\ notion_prop_to_str repr_str repr_float
           (property "formula" (computed "boolean" (PBool true)))
         = Ok (PStr (u "True")))
  /\ (forall repr_str repr_float,
         notion_prop_to_str repr_str repr_float (property "checkbox" (PBool false))
         = Ok (PStr (u "FALSE"))
         /\ notion_prop_to_str repr_str repr_float
              (property "formula" (computed "boolean" (PBool false)))
            = Ok (PStr (u "")))
  /\ u "TRUE" <> u "True" /\ u "FALSE" <> u "".
Proof.
  repeat split; try reflexivity; discriminate.
Qed.

(** C2: a multi-select of two named options normalizes to a string. *)
Lemma normalize_total_on_well_formed_witness :
  exists s,
    notion_prop_to_str quoted float_text
      (property "multi_select"
         (PList [PDict [(u "name", PStr (u "A"))]; PDict [(u "name", PStr (u "B"))]]))
    = Ok (PStr s).
Proof.
  apply (normalize_total_on_well_formed quoted float_text). reflexivity.
Defined.

(** C2 fails as stated: a select whose option has no name raises. *)
Lemma normalize_raises_on_nameless_option :
  exists prop : pyval,
    prop = property "select" (PDict [(u "id", PStr (u "opt1"))])
    /\ forall repr_str repr_float,
         notion_prop_to_str repr_str repr_float prop = Raise KeyError.
Proof.
  eexists. split; [reflexivity|]. intros. reflexivity.
Qed.

(** C3: a number whose value is null normalizes to the empty string, a
    checkbox that has no value at all to "FALSE". *)
Lemma null_payload_is_empty_witness :
  notion_prop_to_str quoted float_text (property "number" PNone) = Ok (PStr [])
  /\ notion_prop_to_str quoted float_text
       (PDict [(u "id", PStr (u "abc")); (u "type", PStr (u "checkbox"))])
     = Ok (PStr (u "FALSE")).
Proof.
  split.
  - apply (null_payload_is_empty quoted float_text
             [(u "id", PStr (u "abc")); (u "type", PStr (u "number"));
              (u "number", PNone)]
             (u "number")).
    + reflexivity.
    + discriminate.
    + right. reflexivity.
  - apply (null_payload_is_empty quoted float_text
             [(u "id", PStr (u "abc")); (u "type", PStr (u "checkbox"))]
             (u "checkbox")).
    + reflexivity.
    + discriminate.
    + left. reflexivity.
Defined.

(** C3 fails as stated: a checkbox without a value normalizes to "FALSE". *)
Lemma null_checkbox_is_FALSE :
  exists prop : pyval,
    prop = property "checkbox" PNone
    /\ forall repr_str repr_float,
         notion_prop_to_str repr_str repr_float prop = Ok (PStr (u "FALSE")).
Proof.
  eexists. split; [reflexivity|]. intros. reflexivity.
Qed.

(** C4 fails as stated: 121 exclamation marks are longer than 120
    characters, and their slug is the default, 8 characters long. *)
Lemma long_input_short_slug :
  exists s : pystr,
    s = repeat 33%N 121
    /\ length s = 121%nat
    /\ (forall unicode_alnum, slugify unicode_alnum s = u "document")
    /\ length (u "document") = 8%nat.
Proof.
  eexists. split; [reflexivity|]. split; [reflexivity|].
  split; [intros; vm_compute; reflexivity|reflexivity].
Qed.

(** C5: the first two columns of the list are blank or missing, the third
    holds " X ": the base name is "X". *)
Lemma base_name_is_first_non_blank_witness :
  base_name_of [(u "{{Invoice #}}", PStr (u "   ")); (u "{{Name}}", PStr (u " X "))] 7
  = Ok (u "X").
Proof.
  pose proof (base_name_is_first_non_blank
                [(u "{{Invoice #}}", PStr (u "   ")); (u "{{Name}}", PStr (u " X "))] 7
                [u "Invoice #"; u "Invoice"] [u "Name"; u "Title"; u "ID"]
                eq_refl) as H.
  refine (H _ (u " X ") eq_refl _).
  - repeat constructor.
  - discriminate.
Defined.

(** C6: three pages, marked more, more, last. *)
Lemma fetch_all_paginates_witness :
  fetch_all_notion_rows three_pages sample_cfg 3 (u "db1") fresh
  = (Ok [sample_row "A" 1; sample_row "B" 2; sample_row "C" 3; sample_row "D" 4],
     {| calls :=
          [NotionPost (u "db1") (notion_headers sample_cfg)
             [(u "page_size", PInt 100); (u "start_cursor", PStr (u "c2"))];
           NotionPost (u "db1") (notion_headers sample_cfg)
             [(u "page_size", PInt 100); (u "start_cursor", PStr (u "c1"))];
           NotionPost (u "db1") (notion_headers sample_cfg)
             [(u "page_size", PInt 100)]];
        files := ∅ |}).
Proof.
  refine (fetch_all_paginates three_pages sample_cfg (u "db1")
            [([sample_row "A" 1], u "c1");
             ([sample_row "B" 2; sample_row "C" 3], u "c2")]
            [sample_row "D" 4] 3 fresh _ _ _ _).
  - discriminate.
  - discriminate.
  - apply serves_next;
      [do 2 eexists; repeat split; try reflexivity; discriminate|].
    apply serves_next;
      [do 2 eexists; repeat split; try reflexivity; discriminate|].
    apply serves_last.
    do 2 eexists; repeat split; reflexivity.
  - simpl. lia.
Defined.

(** C7: the database has no row. *)
Lemma empty_rows_abort_witness :
  main no_alnum quoted float_text no_rows sample_cfg 3 fresh
  = (Raise (SystemExit (u "ERROR: No rows found in Notion database.")),
     {| calls := [NotionPost (u "db1") (notion_headers sample_cfg)
                    [(u "page_size", PInt 100)];
                  GoogleLogin (u "{}")];
        files := ∅ |}).
Proof.
  refine (proj1 (empty_rows_abort no_alnum quoted float_text no_rows sample_cfg 3
                   fresh {| calls := [GoogleLogin (u "{}")]; files := ∅ |} _ _ _)).
  - reflexivity.
  - reflexivity.
Defined.

(** C8: the row with columns Name, the title "Acme", and Total, the number
    42. *)
Lemma placeholder_map_entries_witness :
  row_to_placeholder_map quoted float_text (sample_row "Acme" 42)
  = Ok [(u "{{Name}}", PStr (u "Acme")); (u "{{Total}}", PStr (u "42"))].
Proof.
  refine (proj1 (placeholder_map_entries quoted float_text
                   [(u "object", PStr (u "page"));
                    (u "properties",
                     PDict [(u "Name", title "Acme");
                            (u "Total", property "number" (PInt 42))])]
                   [(u "Name", title "Acme"); (u "Total", property "number" (PInt 42))]
                   [PStr (u "Acme"); PStr (u "42")] eq_refl _ _)).
  - repeat constructor; cbn [In map fst]; intros H;
      repeat (destruct H as [H|H]; [discriminate H|]); exact H.
  - repeat constructor.
Defined.



(** X1: the title made of the runs "Ac" and "me". *)
Lemma text_is_concatenated_runs_witness :
  notion_prop_to_str quoted float_text
    (property "title"
       (PList [PDict [(u "plain_text", PStr (u "Ac"))];
               PDict [(u "type", PStr (u "mention"))];
               PDict [(u "plain_text", PStr (u "me"))]]))
  = Ok (PStr (u "Acme")).
Proof.
  unfold property.
  eapply (text_is_concatenated_runs quoted float_text _ (u "title") _
            [u "Ac"; []; u "me"]).
  - left. reflexivity.
  - reflexivity.
  - reflexivity.
  - repeat constructor.
Defined.

(** X2: the options A and B. *)
Lemma multi_select_is_joined_names_witness :
  notion_prop_to_str quoted float_text
    (property "multi_select"
       (PList [PDict [(u "name", PStr (u "A"))]; PDict [(u "name", PStr (u "B"))]]))
  = Ok (PStr (u "A, B")).
Proof.
  unfold property.
  eapply (multi_select_is_joined_names quoted float_text _ _ [u "A"; u "B"]).
  - reflexivity.
  - reflexivity.
  - repeat constructor.
Defined.

(** X3: Ann, a person without a name, and Bob. *)
Lemma people_is_joined_names_witness :
  notion_prop_to_str quoted float_text
    (property "people"
       (PList [PDict [(u "name", PStr (u "Ann"))];
               PDict [(u "id", PStr (u "p2")); (u "name", PNone)];
               PDict [(u "name", PStr (u "Bob"))]]))
  = Ok (PStr (u "Ann, , Bob")).
Proof.
  unfold property.
  eapply (people_is_joined_names quoted float_text _ _ [u "Ann"; []; u "Bob"]).
  - reflexivity.
  - reflexivity.
  - repeat constructor.
Defined.

(** X4: a kind without a rule, with a list for payload. *)
Lemma robust_kinds_never_raise_witness :
  exists s,
    notion_prop_to_str quoted float_text
      (property "files" (PList [PInt 1; PStr (u "a")])) = Ok (PStr s).
Proof.
  unfold property.
  eapply (robust_kinds_never_raise quoted float_text _ (u "files"));
    [reflexivity|].
  right. right. unfold supported_kinds. cbn [In].
  intros H. repeat (destruct H as [H|H]; [discriminate H|]). exact H.
Defined.

(** X5: an object that has an id only. *)
Lemma untyped_property_is_empty_witness :
  notion_prop_to_str quoted float_text (PDict [(u "id", PStr (u "abc"))])
  = Ok (PStr []).
Proof.
  refine (untyped_property_is_empty quoted float_text _ _). exact I.
Defined.

(** X8: the row at index 1 that has a total only. *)
Lemma fallback_slug_witness :
  slug_of_row no_alnum quoted float_text 1
    (PDict [(u "properties", PDict [(u "Total", property "number" (PInt 42))])])
  = Ok (u "row_1").
Proof.
  refine (fallback_slug no_alnum quoted float_text 1
            (PDict [(u "properties", PDict [(u "Total", property "number" (PInt 42))])])
            [(u "{{Total}}", PStr (u "42"))] eq_refl _).
  repeat constructor.
Defined.

(** X9: one page, then a 502. *)
Lemma fetch_error_aborts_witness :
  fetch_all_notion_rows failing_service sample_cfg 5 (u "db1") fresh
  = (Raise (SystemExit (u "ERROR: Notion API error 502: Bad Gateway")),
     {| calls :=
          [NotionPost (u "db1") (notion_headers sample_cfg)
             [(u "page_size", PInt 100); (u "start_cursor", PStr (u "c1"))];
           NotionPost (u "db1") (notion_headers sample_cfg)
             [(u "page_size", PInt 100)]];
        files := ∅ |}).
Proof.
  refine (fetch_error_aborts failing_service sample_cfg (u "db1")
            [([sample_row "A" 1], u "c1")] (error_response 502 "Bad Gateway")
            5 fresh _ _ _ eq_refl _ _).
  - discriminate.
  - discriminate.
  - apply serves_pages_cons;
      [do 2 eexists; repeat split; try reflexivity; discriminate|].
    apply serves_pages_nil.
  - discriminate.
  - simpl. lia.
Defined.

(** X10: a run over four rows, without a template. *)
Lemma no_template_no_document_witness :
  quiet (main no_alnum quoted float_text three_pages no_template_cfg 3)
  /\ forall w,
       fst (main no_alnum quoted float_text three_pages no_template_cfg 3 w) <> Ok tt.
Proof.
  exact (no_template_no_document no_alnum quoted float_text three_pages
           no_template_cfg 3 eq_refl).
Defined.

(** X11: five iterations against the service that always has more. *)
Lemma fetch_never_returns_witness :
  fst (fetch_all_notion_rows endless_service sample_cfg 5 (u "db1") fresh) = OutOfFuel
  /\ length (calls (snd (fetch_all_notion_rows endless_service sample_cfg 5
                            (u "db1") fresh))) = (5 + length (calls fresh))%nat.
Proof.
  refine (fetch_never_returns endless_service sample_cfg (u "db1") _ _ _ 5%nat fresh).
  - discriminate.
  - discriminate.
  - intros h payload. exists [sample_row "A" 1], (u "c1").
    exists (page_response [sample_row "A" 1] true (PStr (u "c1"))). eexists.
    split.
    { cbn [endless_service scripted notion_post]. f_equal.
      destruct (length (List.filter is_notion_post h)) as [|[|k]]; reflexivity. }
    repeat split; try reflexivity; discriminate.
Defined.

(** X12: the second page has more and a null cursor: the third request
    carries no cursor, where the second carried that of the first page. *)
Lemma missing_cursor_restarts_witness :
  fetch_all_notion_rows cursorless_service sample_cfg 3 (u "db1") fresh
  = (Ok [sample_row "A" 1; sample_row "B" 2; sample_row "C" 3],
     {| calls :=
          [NotionPost (u "db1") (notion_headers sample_cfg) [(u "page_size", PInt 100)];
           NotionPost (u "db1") (notion_headers sample_cfg)
             [(u "page_size", PInt 100); (u "start_cursor", PStr (u "c1"))];
           NotionPost (u "db1") (notion_headers sample_cfg) [(u "page_size", PInt 100)]];
        files := ∅ |}).
Proof.
  refine (missing_cursor_restarts cursorless_service sample_cfg (u "db1")
            [([sample_row "A" 1], u "c1")]
            (page_response [sample_row "B" 2] true PNone)
            (page_response [sample_row "C" 3] false PNone)
            _ _ [sample_row "B" 2] [sample_row "C" 3] 3 fresh
            _ _ _ eq_refl _ eq_refl eq_refl eq_refl eq_refl eq_refl _ eq_refl
            eq_refl eq_refl _).
  - discriminate.
  - discriminate.
  - apply serves_pages_cons;
      [do 2 eexists; repeat split; try reflexivity; discriminate|].
    apply serves_pages_nil.
  - reflexivity.
  - reflexivity.
  - simpl. lia.
Defined.

(** X13: the row with the columns Name and Total. *)
Lemma placeholder_lookup_witness :
  exists repl,
    row_to_placeholder_map quoted float_text (sample_row "Acme" 42) = Ok repl
    /\ forall col,
         match dict_get [(u "Name", title "Acme");
                         (u "Total", property "number" (PInt 42))] col with
         | Some p => exists v, notion_prop_to_str quoted float_text p = Ok v
                               /\ dict_get repl (placeholder col) = Some v
         | None => dict_get repl (placeholder col) = None
         end.
Proof.
  refine (placeholder_lookup quoted float_text
            [(u "object", PStr (u "page"));
             (u "properties",
              PDict [(u "Name", title "Acme");
                     (u "Total", property "number" (PInt 42))])]
            [(u "Name", title "Acme"); (u "Total", property "number" (PInt 42))]
            [PStr (u "Acme"); PStr (u "42")] eq_refl _ _).
  - repeat constructor; cbn [In map fst]; intros H;
      repeat (destruct H as [H|H]; [discriminate H|]); exact H.
  - repeat constructor.
Defined.

(** X14: the row whose second column is a select with a nameless option. *)
Lemma malformed_column_aborts_row_witness :
  process_row no_alnum quoted float_text no_rows sample_cfg 1 1 malformed_row fresh
  = (Raise KeyError, fresh).
Proof.
  refine (malformed_column_aborts_row no_alnum quoted float_text no_rows sample_cfg
            [(u "properties",
              PDict [(u "Name", title "Bad");
                     (u "Stage", property "select" (PDict [(u "id", PStr (u "opt1"))]));
                     (u "Total", property "number" (PInt 7))])]
            [(u "Name", title "Bad")]
            [(u "Total", property "number" (PInt 7))]
            (u "Stage") (property "select" (PDict [(u "id", PStr (u "opt1"))]))
            KeyError 1 1 fresh eq_refl _ eq_refl).
  repeat constructor. eexists. reflexivity.
Defined.

(** X15: a run over four rows with cleanup off. *)
Lemma no_delete_when_cleanup_off_witness :
  exists evs,
    calls (snd (main no_alnum quoted float_text three_pages keep_cfg 3 fresh))
    = evs ++ calls fresh
    /\ Forall (fun e => is_delete e = false) evs.
Proof.
  exact (no_delete_when_cleanup_off no_alnum quoted float_text three_pages keep_cfg
           3 eq_refl fresh).
Defined.

(** X16: the run over the four rows of the three pages. *)
Lemma successful_run_witness :
  let run := main no_alnum quoted float_text three_pages sample_cfg 3 in
  exists (w0 w1 : world) (rows : list pyval) (rs : list rendered),
    google_clients_from_token_json three_pages sample_cfg fresh = (Ok tt, w0)
    /\ fetch_all_notion_rows three_pages sample_cfg 3 (NOTION_DATABASE_ID sample_cfg) w0
       = (Ok rows, w1)
    /\ rows <> []
    /\ rows_rendered no_alnum quoted float_text 1 rows rs
    /\ length rs = length rows
    /\ calls (snd (run fresh))
       = PrintDone :: run_calls sample_cfg 1 (length rows) rs
         ++ PrintFound (length rows) (OUTPUT_DIR sample_cfg) :: calls w1
    /\ files (snd (run fresh)) = run_files sample_cfg rs (files w1).
Proof.
  refine (successful_run no_alnum quoted float_text three_pages sample_cfg 3 fresh
            (snd (main no_alnum quoted float_text three_pages sample_cfg 3 fresh)) _).
  vm_compute. reflexivity.
Defined.

(** X17: a token of three spaces. *)
Lemma blank_token_is_missing_witness :
  fetch_all_notion_rows three_pages
    (config_of_env (fun s => s)
       (fun k => if str_eqb k (u "NOTION_TOKEN") then Some (u "   ") else None))
    3 (u "db1") fresh
  = (Raise (SystemExit
              (u "ERROR: NOTION_TOKEN is missing (set GitHub secret NOTION_TOKEN).")),
     fresh).
Proof.
  refine (blank_token_is_missing _ _ _ _ _ _ _).
  repeat constructor.
Defined.

